(** * Tsunami risk dashboard ([app.py]): a shallow embedding

    The dashboard is one Streamlit script.  Each run of the script reads
    twelve sidebar controls, packs their values in a one-row pandas
    DataFrame, and, when the button is pressed, asks a pickled classifier
    for a label and a probability and renders a verdict, a gauge, a map
    and a feature-importance chart.

    Conventions of the embedding:
    - Python [int] is [Z]; a finite Python [float] is the rational [Q] it
      denotes, so comparisons are exact; the one arithmetic operation of
      the script, the product of line 85, is rounded to binary64
      ([binary64], nearest, ties to even) and may overflow to infinity;
    - a dict literal and a DataFrame row are association lists, in
      insertion order;
    - the script is a computation in a small monad [App] that threads the
      server process (the resource cache, the count of deserializations)
      and the elements rendered so far, and may raise a Python exception;
    - the classifier, the model file and the clock are outside the
      repository and are parameters. *)

From Stdlib Require Import ZArith QArith Qabs String Ascii List Bool Lia.
From Stdlib Require Import DecimalString Permutation Sorted.
From Stdlib Require PrimFloat FloatOps Uint63.
Import ListNotations.
Local Open Scope string_scope.
Local Open Scope Z_scope.

(* ------------------------------------------------------------------ *)
(** ** Python values and exceptions *)

Module Py.

(** The exceptions the script can meet.  [KeyboardInterrupt] derives
    from [BaseException] only, the others from [Exception]. *)
Inductive exn : Type :=
| AttributeError (msg : string)
| IndexError (msg : string)
| ValueError (msg : string)
| FileNotFoundError (msg : string)
| RuntimeError (msg : string)
| KeyboardInterrupt.

Definition is_Exception (e : exn) : bool :=
  match e with
  | KeyboardInterrupt => false
  | _ => true
  end.

Inductive result (A : Type) : Type :=
| Ok (a : A)
| Raise (e : exn).
Arguments Ok {A} a.
Arguments Raise {A} e.

(** A scalar held by a widget or a DataFrame cell. *)
Inductive value : Type :=
| VInt (z : Z)
| VFloat (q : Q).

Definition to_Q (v : value) : Q :=
  match v with
  | VInt z => inject_Z z
  | VFloat q => q
  end.

(** The result of float arithmetic: the rational a finite float
    denotes, or an infinity. *)
Inductive float : Type :=
| Finite (q : Q)
| Inf (negative : bool).

(** [xs[i]] on a sequence. *)
Definition getitem {A : Type} (xs : list A) (i : nat) : result A :=
  match nth_error xs i with
  | Some x => Ok x
  | None => Raise (IndexError "index out of range")
  end.

End Py.

(* ------------------------------------------------------------------ *)
(** ** The part of pandas the script uses *)

Module Pandas.

(** One record of [pd.DataFrame([{...}])]: a dict literal. *)
Definition record : Type := list (string * Py.value).

Record DataFrame : Type := mkDataFrame {
  columns : list string;
  rows : list (list (option Py.value))
}.

Fixpoint lookup (k : string) (r : record) : option Py.value :=
  match r with
  | [] => None
  | (k', v) :: r' => if String.eqb k k' then Some v else lookup k r'
  end.

Definition mem (k : string) (ks : list string) : bool :=
  existsb (String.eqb k) ks.

(** Keys in order of first appearance over the records. *)
Fixpoint union_keys (seen : list string) (ks : list string) : list string :=
  match ks with
  | [] => seen
  | k :: ks' =>
      if mem k seen then union_keys seen ks'
      else union_keys (seen ++ [k]) ks'
  end.

(** [pd.DataFrame(records)]: the columns are the keys, in insertion
    order; a record without a key has a missing cell. *)
Definition from_records (rs : list record) : DataFrame :=
  let cols := fold_left (fun seen r => union_keys seen (map fst r)) rs [] in
  {| columns := cols;
     rows := map (fun r => map (fun c => lookup c r) cols) rs |}.

(** [df[col][i]]. *)
Definition cell (df : DataFrame) (col : string) (i : nat) : option Py.value :=
  match nth_error (rows df) i with
  | None => None
  | Some r =>
      (fix go (cs : list string) (vs : list (option Py.value)) :=
         match cs, vs with
         | c :: cs', v :: vs' => if String.eqb col c then v else go cs' vs'
         | _, _ => None
         end) (columns df) r
  end.

End Pandas.

(* ------------------------------------------------------------------ *)
(** ** The sidebar controls (lines 59-70) *)

Module Sidebar.

(** The values the twelve controls return on a render pass, under the
    names of the script's variables. *)
Record t : Type := mk {
  magnitude : Q;
  depth : Q;
  cdi : Z;
  mmi : Z;
  sig : Z;
  nst : Z;
  dmin : Q;
  gap : Q;
  latitude : Q;
  longitude : Q;
  year : Z;
  month : Z
}.

(** The twelve fields of the input record. *)
Inductive field : Type :=
| Magnitude | Depth | Cdi | Mmi | Sig | Nst
| Dmin | Gap | Latitude | Longitude | Year | Month.

(** The controls in the order the script creates them. *)
Definition all_fields : list field :=
  [Magnitude; Depth; Cdi; Mmi; Sig; Nst; Dmin; Gap; Latitude; Longitude; Year; Month].

(** What the control of a field returns. *)
Definition control_value (f : t) (x : field) : Py.value :=
  match x with
  | Magnitude => Py.VFloat (magnitude f)
  | Depth => Py.VFloat (depth f)
  | Cdi => Py.VInt (cdi f)
  | Mmi => Py.VInt (mmi f)
  | Sig => Py.VInt (sig f)
  | Nst => Py.VInt (nst f)
  | Dmin => Py.VFloat (dmin f)
  | Gap => Py.VFloat (gap f)
  | Latitude => Py.VFloat (latitude f)
  | Longitude => Py.VFloat (longitude f)
  | Year => Py.VInt (year f)
  | Month => Py.VInt (month f)
  end.

(** [min_value], [max_value] of each control. *)
Definition control_range (x : field) : Q * Q :=
  match x with
  | Magnitude => (4.0, 10.0)
  | Depth => (0.0, 700.0)
  | Cdi => (inject_Z 0, inject_Z 10)
  | Mmi => (inject_Z 0, inject_Z 10)
  | Sig => (inject_Z 0, inject_Z 1000)
  | Nst => (inject_Z 0, inject_Z 1000)
  | Dmin => (0.0, 10.0)
  | Gap => (0.0, 180.0)
  | Latitude => (-90.0, 90.0)
  | Longitude => (-180.0, 180.0)
  | Year => (inject_Z 1900, inject_Z 2025)
  | Month => (inject_Z 1, inject_Z 12)
  end%Q.

(** The value each control shows before the operator touches it;
    [now_month] is [datetime.now().month]. *)
Definition defaults (now_month : Z) : t :=
  {| magnitude := 6.5; depth := 50.0; cdi := 5; mmi := 5;
     sig := 600; nst := 100; dmin := 1.0; gap := 40.0;
     latitude := 0.0; longitude := 0.0; year := 2024;
     month := now_month |}%Q.

Definition within (b : Q * Q) (q : Q) : bool :=
  Qle_bool (fst b) q && Qle_bool q (snd b).

(** Every control holds a value of its own range. *)
Definition in_range (f : t) : bool :=
  forallb (fun x => within (control_range x) (Py.to_Q (control_value f x)))
          all_fields.

End Sidebar.

(* ------------------------------------------------------------------ *)
(** ** The input record (lines 73-77) *)

Definition input_record (f : Sidebar.t) : Pandas.record :=
  [ ("magnitude", Py.VFloat (Sidebar.magnitude f));
    ("cdi", Py.VInt (Sidebar.cdi f));
    ("mmi", Py.VInt (Sidebar.mmi f));
    ("sig", Py.VInt (Sidebar.sig f));
    ("nst", Py.VInt (Sidebar.nst f));
    ("dmin", Py.VFloat (Sidebar.dmin f));
    ("gap", Py.VFloat (Sidebar.gap f));
    ("depth", Py.VFloat (Sidebar.depth f));
    ("latitude", Py.VFloat (Sidebar.latitude f));
    ("longitude", Py.VFloat (Sidebar.longitude f));
    ("Year", Py.VInt (Sidebar.year f));
    ("Month", Py.VInt (Sidebar.month f)) ].

Definition input_data (f : Sidebar.t) : Pandas.DataFrame :=
  Pandas.from_records [input_record f].

(** The column that carries a field of the record. *)
Definition column_of (x : Sidebar.field) : string :=
  match x with
  | Sidebar.Magnitude => "magnitude"
  | Sidebar.Depth => "depth"
  | Sidebar.Cdi => "cdi"
  | Sidebar.Mmi => "mmi"
  | Sidebar.Sig => "sig"
  | Sidebar.Nst => "nst"
  | Sidebar.Dmin => "dmin"
  | Sidebar.Gap => "gap"
  | Sidebar.Latitude => "latitude"
  | Sidebar.Longitude => "longitude"
  | Sidebar.Year => "Year"
  | Sidebar.Month => "Month"
  end.

(* ------------------------------------------------------------------ *)
(** ** The classifier loaded from the model file *)

Module Sklearn.

(** What the script asks of the unpickled object: [predict],
    [predict_proba], and the attribute [feature_importances_], which
    some estimators do not have ([None]). *)
Record classifier : Type := mk {
  predict : Pandas.DataFrame -> Py.result (list Z);
  predict_proba : Pandas.DataFrame -> Py.result (list (list Q));
  feature_importances : option (list Q)
}.

(** [model.feature_importances_]. *)
Definition feature_importances_ (m : classifier) : Py.result (list Q) :=
  match feature_importances m with
  | Some ws => Py.Ok ws
  | None =>
      Py.Raise (Py.AttributeError "object has no attribute 'feature_importances_'")
  end.

End Sklearn.

(* ------------------------------------------------------------------ *)
(** ** Figures *)

Module Plotly.

Record step : Type := mkStep {
  range : Q * Q;
  color : string
}.

(** [go.Figure(go.Indicator(...))] with its layout. *)
Record indicator : Type := mkIndicator {
  mode : string;
  value : Py.float;
  title_text : string;
  title_font_size : Z;
  axis_range : Q * Q;
  axis_tickwidth : Z;
  axis_tickcolor : string;
  bar_color : string;
  bgcolor : string;
  steps : list step;
  height : Z
}.

(** The one point of [px.scatter_mapbox]. *)
Record scatter_mapbox : Type := mkMap {
  lat : Q;
  lon : Q;
  size : Q;
  hover_name : string;
  hover_depth : Q;
  marker_color : option string;
  size_max : Z;
  mapbox_style : string;
  mapbox_zoom : Q;
  mapbox_center : Q * Q;
  map_height : Z
}.

(** [px.bar(..., orientation="h")]: one bar per row, bottom-up. *)
Record bar : Type := mkBar {
  bars : list (string * Q);
  orientation : string;
  color_continuous_scale : string;
  bar_title : string;
  font_size : Z
}.

Inductive figure : Type :=
| Indicator (g : indicator)
| ScatterMapbox (m : scatter_mapbox)
| Bar (b : bar).

End Plotly.

(* ------------------------------------------------------------------ *)
(** ** Streamlit: the page, the resource cache, the script monad *)

Module St.

(** What a run of the script puts on the page. *)
Inductive element : Type :=
| Markdown (body : string)
| Title (body : string)
| SidebarHeader (body : string)
| Write (body : string)
| Dataframe (df : Pandas.DataFrame)
| Subheader (body : string)
| Warning (body : string)
| Success (body : string)
| Info (body : string)
| Metric (label : string) (val : string)
| PlotlyChart (fig : Plotly.figure).

(** The server process: the slot of [st.cache_resource] for
    [load_model] and the number of calls of [joblib.load] so far. *)
Record process : Type := mkProcess {
  cache : option Sklearn.classifier;
  loads : nat
}.

Record world : Type := mkWorld {
  proc : process;
  page : list element
}.

(** What the script reads from outside: the files [joblib.load] can
    open and the clock. *)
Record env : Type := mkEnv {
  files : string -> Py.result Sklearn.classifier;
  now_month : Z;
  now_stamp : string
}.

Definition App (A : Type) : Type := world -> Py.result A * world.

Definition ret {A : Type} (a : A) : App A := fun w => (Py.Ok a, w).

Definition bind {A B : Type} (c : App A) (k : A -> App B) : App B :=
  fun w =>
    match c w with
    | (Py.Ok a, w') => k a w'
    | (Py.Raise e, w') => (Py.Raise e, w')
    end.

(** A call that returns or raises without touching the world. *)
Definition lift {A : Type} (r : Py.result A) : App A := fun w => (r, w).

Definition emit (e : element) : App unit :=
  fun w => (Py.Ok tt, {| proc := proc w; page := page w ++ [e] |}).

(** [try: body  except Exception: handler]. *)
Definition try_except {A : Type} (body : App A) (handler : App A) : App A :=
  fun w =>
    match body w with
    | (Py.Ok a, w') => (Py.Ok a, w')
    | (Py.Raise e, w') =>
        if Py.is_Exception e then handler w' else (Py.Raise e, w')
    end.

(** [@st.cache_resource] on a function without arguments: the first
    call that returns fills the slot, later calls read it. *)
Definition cache_resource (f : App Sklearn.classifier) : App Sklearn.classifier :=
  fun w =>
    match cache (proc w) with
    | Some m => (Py.Ok m, w)
    | None =>
        match f w with
        | (Py.Ok m, w') =>
            (Py.Ok m,
             {| proc := {| cache := Some m; loads := loads (proc w') |};
                page := page w' |})
        | (Py.Raise e, w') => (Py.Raise e, w')
        end
    end.

(** A process that has just started. *)
Definition boot : process := {| cache := None; loads := 0 |}.

End St.

Declare Scope app_scope.
Delimit Scope app_scope with app.
Notation "x <- c ;; k" := (St.bind c (fun x => k))
  (at level 61, c at next level, right associativity) : app_scope.
Notation "c ;; k" := (St.bind c (fun _ => k))
  (at level 61, right associativity) : app_scope.

(** [joblib.load(path)]. *)
Definition joblib_load (e : St.env) (path : string) : St.App Sklearn.classifier :=
  fun w =>
    (St.files e path,
     {| St.proc := {| St.cache := St.cache (St.proc w);
                      St.loads := S (St.loads (St.proc w)) |};
        St.page := St.page w |}).

(** Lines 39-41. *)
Definition load_model (e : St.env) : St.App Sklearn.classifier :=
  St.cache_resource (joblib_load e "Tsunami_model.pkl").


(* ------------------------------------------------------------------ *)
(** ** Formatting *)

(** Nearest integer, ties to even. *)
Definition round_half_even (q : Q) : Z :=
  let n := Qnum q in
  let d := Z.pos (Qden q) in
  let fl := n / d in
  match (2 * (n mod d) ?= d) with
  | Lt => fl
  | Gt => fl + 1
  | Eq => if Z.even fl then fl else fl + 1
  end.

Definition digits (n : Z) : string :=
  NilZero.string_of_uint (N.to_uint (Z.to_N n)).

(** [f"{x:.2f}"]: two decimals, the sign of [x] kept. *)
Definition format_2f (x : Q) : string :=
  let c := round_half_even (Qabs x * 100) in
  let frac := c mod 100 in
  (if Qle_bool 0 x then "" else "-")
  ++ digits (c / 100) ++ "."
  ++ (if frac <? 10 then "0" else "") ++ digits frac.

(* ------------------------------------------------------------------ *)
(** ** Binary floating point *)

(** [2 ^ e] for an integer [e] of either sign. *)
Definition pow2 (e : Z) : Q :=
  if 0 <=? e then inject_Z (2 ^ e) else 1 # Z.to_pos (2 ^ (- e)).

(** For [q > 0], the [l] with [2 ^ l <= q < 2 ^ (l + 1)]. *)
Definition floor_log2 (q : Q) : Z :=
  let l := Z.log2 (Qnum q) - Z.log2 (Z.pos (Qden q)) in
  if Qle_bool (pow2 l) q then l else l - 1.

(** The binary64 float nearest to a rational, ties to even: 53 bits of
    mantissa, exponents down to the subnormals, infinity from
    [2 ^ 1024] on. *)
Definition binary64 (q : Q) : Py.float :=
  if Qeq_bool q 0 then Py.Finite 0
  else
    let a := Qabs q in
    let e := Z.max (floor_log2 a - 52) (-1074) in
    let m := round_half_even (a / pow2 e) in
    let r := Qred (inject_Z m * pow2 e) in
    if Qle_bool (pow2 1024) r then Py.Inf (negb (Qle_bool 0 q))
    else Py.Finite (if Qle_bool 0 q then r else Qopp r).

(** [x * y] on floats. *)
Definition float_mul (x y : Q) : Py.float := binary64 (x * y).

(** [f"{x:.2f}"] on the result of float arithmetic. *)
Definition format_float_2f (x : Py.float) : string :=
  match x with
  | Py.Finite q => format_2f q
  | Py.Inf false => "inf"
  | Py.Inf true => "-inf"
  end.

Definition nl : string := String (ascii_of_nat 10) "".
Definition dq : string := String (ascii_of_nat 34) "".

(* ------------------------------------------------------------------ *)
(** ** The predictor (lines 84-85) *)

Definition predictor (model : Sklearn.classifier) (df : Pandas.DataFrame)
  : Py.result (Z * Py.float) :=
  match Sklearn.predict model df with
  | Py.Raise e => Py.Raise e
  | Py.Ok labels =>
      match Py.getitem labels 0 with
      | Py.Raise e => Py.Raise e
      | Py.Ok prediction =>
          match Sklearn.predict_proba model df with
          | Py.Raise e => Py.Raise e
          | Py.Ok probas =>
              match Py.getitem probas 0 with
              | Py.Raise e => Py.Raise e
              | Py.Ok row =>
                  match Py.getitem row 1 with
                  | Py.Raise e => Py.Raise e
                  | Py.Ok p1 => Py.Ok (prediction, float_mul p1 100)
                  end
              end
          end
      end
  end.

(* ------------------------------------------------------------------ *)
(** ** The presenter *)

Definition high_risk_heading : string := "### 🌊 **High Tsunami Probability Detected**".
Definition high_risk_warning : string :=
  "⚠️ **Immediate caution advised!**" ++ nl
  ++ "The model detects a significant chance of tsunami occurrence.".
Definition safe_heading : string := "### ✅ **No Major Tsunami Risk**".
Definition safe_message : string :=
  "Safe conditions predicted — no significant tsunami risk detected.".
Definition no_importance_message : string :=
  "Feature importance is not available for this model type.".

(** Lines 92-98, the first column. *)
Definition verdict_panel (prediction : Z) (prob : Py.float) : St.App unit :=
  ((if prediction =? 1 then
      St.emit (St.Markdown high_risk_heading) ;;
      St.emit (St.Warning high_risk_warning)
    else
      St.emit (St.Markdown safe_heading) ;;
      St.emit (St.Success safe_message)) ;;
   St.emit (St.Metric "Tsunami Risk Probability" (format_float_2f prob ++ " %")))%app.

(** Lines 102-117. *)
Definition fig_gauge (prob : Py.float) : Plotly.indicator :=
  {| Plotly.mode := "gauge+number+delta";
     Plotly.value := prob;
     Plotly.title_text := "Risk Level (%)";
     Plotly.title_font_size := 20;
     Plotly.axis_range := (0, 100)%Q;
     Plotly.axis_tickwidth := 1;
     Plotly.axis_tickcolor := "gray";
     Plotly.bar_color := "#007BFF";
     Plotly.bgcolor := "white";
     Plotly.steps :=
       [ {| Plotly.range := (0, 40)%Q; Plotly.color := "lightgreen" |};
         {| Plotly.range := (40, 70)%Q; Plotly.color := "gold" |};
         {| Plotly.range := (70, 100)%Q; Plotly.color := "tomato" |} ];
     Plotly.height := 250 |}.

(** Line 134. *)
Definition risk_level (magnitude : Q) : string :=
  if Qle_bool 7 magnitude then "High"
  else if Qle_bool 5 magnitude then "Moderate"
  else "Low".

Definition color_discrete_map : list (string * string) :=
  [("Low", "green"); ("Moderate", "orange"); ("High", "red")].

Fixpoint assoc (k : string) (kvs : list (string * string)) : option string :=
  match kvs with
  | [] => None
  | (k', v) :: kvs' => if String.eqb k k' then Some v else assoc k kvs'
  end.

(** Lines 129-158: [map_df] and the figure drawn from it. *)
Definition fig_map (ui : Sidebar.t) : Plotly.scatter_mapbox :=
  let level := risk_level (Sidebar.magnitude ui) in
  {| Plotly.lat := Sidebar.latitude ui;
     Plotly.lon := Sidebar.longitude ui;
     Plotly.size := Sidebar.magnitude ui;
     Plotly.hover_name := level;
     Plotly.hover_depth := Sidebar.depth ui;
     Plotly.marker_color := assoc level color_discrete_map;
     Plotly.size_max := 30;
     Plotly.mapbox_style := "open-street-map";
     Plotly.mapbox_zoom := 2.5%Q;
     Plotly.mapbox_center := (Sidebar.latitude ui, Sidebar.longitude ui);
     Plotly.map_height := 500 |}.

(** [pd.DataFrame({"Feature": ..., "Importance": ...})]: two columns of
    one length. *)
Definition feature_frame (features : list string) (importances : list Q)
  : Py.result (list (string * Q)) :=
  if Nat.eqb (List.length features) (List.length importances)
  then Py.Ok (combine features importances)
  else Py.Raise (Py.ValueError "All arrays must be of the same length").

Fixpoint insert_by_importance (r : string * Q) (rs : list (string * Q))
  : list (string * Q) :=
  match rs with
  | [] => [r]
  | r' :: rs' =>
      if Qle_bool (snd r) (snd r') then r :: rs
      else r' :: insert_by_importance r rs'
  end.

(** [.sort_values("Importance", ascending=True)]. *)
Definition sort_values (rs : list (string * Q)) : list (string * Q) :=
  fold_right insert_by_importance [] rs.

(** Lines 165-189. *)
Definition feature_importance_panel
  (model : Sklearn.classifier) (df : Pandas.DataFrame) : St.App unit :=
  St.try_except
    (importances <- St.lift (Sklearn.feature_importances_ model) ;;
     frame <- St.lift (feature_frame (Pandas.columns df) importances) ;;
     St.emit (St.PlotlyChart (Plotly.Bar
       {| Plotly.bars := sort_values frame;
          Plotly.orientation := "h";
          Plotly.color_continuous_scale := "Viridis";
          Plotly.bar_title := "Feature Influence on Tsunami Prediction";
          Plotly.font_size := 13 |})))%app
    (St.emit (St.Info no_importance_message)).

(** Lines 83-191: what the button triggers. *)
Definition on_button (e : St.env) (model : Sklearn.classifier)
  (ui : Sidebar.t) (clicked : bool) : St.App unit :=
  (if clicked then
     r <- St.lift (predictor model (input_data ui)) ;;
     let (prediction, prob) := r in
     St.emit (St.Markdown "---") ;;
     verdict_panel prediction prob ;;
     St.emit (St.PlotlyChart (Plotly.Indicator (fig_gauge prob))) ;;
     St.emit (St.Info ("🕒 **Last Updated:** " ++ St.now_stamp e)) ;;
     St.emit (St.Markdown "---") ;;
     St.emit (St.Subheader "🌍 Global Earthquake Visualization") ;;
     St.emit (St.PlotlyChart (Plotly.ScatterMapbox (fig_map ui))) ;;
     St.emit (St.Subheader "📊 Model Feature Importance") ;;
     feature_importance_panel model (input_data ui)
   else
     St.emit (St.Info
       "👈 Adjust earthquake parameters and click **Run Tsunami Risk Prediction** to begin."))%app.

Definition style_sheet : string :=
  "<style> h1 { color: #003366; text-align: center; font-weight: 900 !important; } "
  ++ "div[data-testid=" ++ dq ++ "stMetricValue" ++ dq ++ "] { color: #0d6efd; } "
  ++ "[data-testid=" ++ dq ++ "stSidebar" ++ dq ++ "] { background-color: #f4f7fb; } "
  ++ ".block-container { padding-top: 1rem; } </style>".

(** One run of the script, top to bottom. *)
Definition script (e : St.env) (ui : Sidebar.t) (clicked : bool) : St.App unit :=
  (St.emit (St.Markdown style_sheet) ;;
   model <- load_model e ;;
   St.emit (St.Title "🌋 Earthquake & Tsunami Risk Prediction Dashboard") ;;
   St.emit (St.Markdown
     "Welcome to the **AI-powered Tsunami Risk Prediction System**, where machine learning meets real-time seismic insights 🌍. Use the panel on the left to input earthquake details and assess tsunami likelihood.") ;;
   St.emit (St.Markdown "---") ;;
   St.emit (St.SidebarHeader "⚙️ Input Earthquake Parameters") ;;
   St.emit (St.Write "### 📋 Input Summary") ;;
   St.emit (St.Dataframe (input_data ui)) ;;
   on_button e model ui clicked)%app.

(** What the controls return on the first run of a session, before the
    operator has touched any of them. *)
Definition initial_controls (e : St.env) : Sidebar.t :=
  Sidebar.defaults (St.now_month e).

(** A rerun starts from an empty page in the same process. *)
Definition rerun (e : St.env) (ui : Sidebar.t) (clicked : bool) (p : St.process)
  : Py.result unit * St.world :=
  script e ui clicked {| St.proc := p; St.page := [] |}.

(* ------------------------------------------------------------------ *)
(** ** The data model of the specification, and test stubs *)

(** The fields of the input record in the order the data model of the
    specification lists them. *)
Definition spec_schema : list Sidebar.field :=
  [ Sidebar.Magnitude; Sidebar.Depth; Sidebar.Cdi; Sidebar.Mmi;
    Sidebar.Sig; Sidebar.Nst; Sidebar.Dmin; Sidebar.Gap;
    Sidebar.Latitude; Sidebar.Longitude; Sidebar.Year; Sidebar.Month ].

(** The fields in the order of the columns of [input_data]. *)
Definition record_schema : list Sidebar.field :=
  [ Sidebar.Magnitude; Sidebar.Cdi; Sidebar.Mmi; Sidebar.Sig;
    Sidebar.Nst; Sidebar.Dmin; Sidebar.Gap; Sidebar.Depth;
    Sidebar.Latitude; Sidebar.Longitude; Sidebar.Year; Sidebar.Month ].

(** The bounds the data model of the specification gives each field. *)
Definition spec_bounds (x : Sidebar.field) : Q * Q :=
  match x with
  | Sidebar.Magnitude => (4.0, 10.0)
  | Sidebar.Depth => (0, 700)
  | Sidebar.Cdi => (0, 10)
  | Sidebar.Mmi => (0, 10)
  | Sidebar.Sig => (0, 1000)
  | Sidebar.Nst => (0, 1000)
  | Sidebar.Dmin => (0, 10)
  | Sidebar.Gap => (0, 180)
  | Sidebar.Latitude => (-90, 90)
  | Sidebar.Longitude => (-180, 180)
  | Sidebar.Year => (1900, 2025)
  | Sidebar.Month => (1, 12)
  end%Q.

(** What a hardware float denotes: [None] for a NaN. *)
Definition of_hardware (f : PrimFloat.float) : option Py.float :=
  match FloatOps.Prim2SF f with
  | SpecFloat.S754_zero _ => Some (Py.Finite 0)
  | SpecFloat.S754_infinity s => Some (Py.Inf s)
  | SpecFloat.S754_nan => None
  | SpecFloat.S754_finite s m e =>
      let v := Qred (inject_Z (Z.pos m) * pow2 e) in
      Some (Py.Finite (if s then Qopp v else v))
  end.

(** [float_mul] against the hardware product with 100 on one float. *)
Definition agrees_with_hardware (f : PrimFloat.float) : bool :=
  match of_hardware f, of_hardware (PrimFloat.mul f (PrimFloat.of_uint63 (Uint63.of_Z 100))) with
  | Some (Py.Finite x), Some (Py.Finite y) =>
      match float_mul x 100 with
      | Py.Finite z => Z.eqb (Qnum y) (Qnum z) && Pos.eqb (Qden y) (Qden z)
      | Py.Inf _ => false
      end
  | Some (Py.Finite x), Some (Py.Inf s) =>
      match float_mul x 100 with
      | Py.Inf t => Bool.eqb s t
      | Py.Finite _ => false
      end
  | _, _ => false
  end.

(** The float nearest to [n / d], by the hardware division. *)
Definition hardware_ratio (n d : Z) : PrimFloat.float :=
  PrimFloat.div (PrimFloat.of_uint63 (Uint63.of_Z n)) (PrimFloat.of_uint63 (Uint63.of_Z d)).

(** The floats that the literals [0.82] and [0.18] denote. *)
Definition float_0_82 : Q := 7385903388887613 # 9007199254740992.
Definition float_0_18 : Q := 3242591731706757 # 18014398509481984.

(** A stubbed model: always the same label, the same probabilities per
    class, and maybe importances. *)
Definition stub_model (label : Z) (probas : list Q) (importances : option (list Q))
  : Sklearn.classifier :=
  {| Sklearn.predict := fun _ => Py.Ok [label];
     Sklearn.predict_proba := fun _ => Py.Ok [probas];
     Sklearn.feature_importances := importances |}.

(** A model whose classification answers [labels] and whose probability
    estimation raises. *)
Definition broken_model (labels : Py.result (list Z)) (e : Py.exn)
  : Sklearn.classifier :=
  {| Sklearn.predict := fun _ => labels;
     Sklearn.predict_proba := fun _ => Py.Raise e;
     Sklearn.feature_importances := None |}.

(** A disk that holds one model file. *)
Definition disk_with (m : Sklearn.classifier) : St.env :=
  {| St.files := fun path =>
       if String.eqb path "Tsunami_model.pkl" then Py.Ok m
       else Py.Raise (Py.FileNotFoundError path);
     St.now_month := 11;
     St.now_stamp := "2026-11-03 10:00:00" |}.

(** The elements a computation adds to an empty page of a fresh process. *)
Definition rendered {A : Type} (c : St.App A) : list St.element :=
  St.page (snd (c {| St.proc := St.boot; St.page := [] |})).

(** [n] calls in a row: the results, in order, and the world left. *)
Fixpoint call_times {A : Type} (n : nat) (c : St.App A) (w : St.world)
  : list (Py.result A) * St.world :=
  match n with
  | O => ([], w)
  | S n' =>
      let (r, w') := c w in
      let (rs, w'') := call_times n' c w' in
      (r :: rs, w'')
  end.

(** The process left by a series of reruns, each with its own inputs. *)
Fixpoint reruns (e : St.env) (inputs : list (Sidebar.t * bool)) (p : St.process)
  : St.process :=
  match inputs with
  | [] => p
  | (ui, clicked) :: rest => reruns e rest (St.proc (snd (rerun e ui clicked p)))
  end.

(** The world after more elements reach the page. *)
Definition extend (w : St.world) (els : list St.element) : St.world :=
  {| St.proc := St.proc w; St.page := St.page w ++ els |}.

(** A computation that only renders: it leaves the process alone, and
    its result and the elements it adds do not depend on the world. *)
Definition renders_only {A : Type} (c : St.App A) : Prop :=
  forall w : St.world,
    c w = (fst (c {| St.proc := St.boot; St.page := [] |}), extend w (rendered c)).

(* ------------------------------------------------------------------ *)
(** * Properties *)

(** ** The input assembler *)

Lemma input_data_unfold (ui : Sidebar.t) :
  input_data ui =
  {| Pandas.columns := map fst (input_record ui);
     Pandas.rows := [map (fun kv => Some (snd kv)) (input_record ui)] |}.
Proof. reflexivity. Qed.

(** C7.  The record has one row, and for each of the twelve fields the
    cell of its column is the value its control returned, unchanged. *)
Theorem input_record_is_projection (ui : Sidebar.t) :
  List.length (Pandas.rows (input_data ui)) = 1%nat /\
  forall x : Sidebar.field,
    Pandas.cell (input_data ui) (column_of x) 0 = Some (Sidebar.control_value ui x).
Proof.
  split; [reflexivity|].
  intros x; destruct x; reflexivity.
Qed.

(** C1 fails as stated: with the default controls the columns are not in
    the order of the data model; the second column is [cdi], not
    [depth]. *)
Lemma columns_not_in_spec_order :
  Pandas.columns (input_data (Sidebar.defaults 11)) <> map column_of spec_schema
  /\ nth_error (Pandas.columns (input_data (Sidebar.defaults 11))) 1 = Some "cdi"
  /\ nth_error (map column_of spec_schema) 1 = Some "depth".
Proof.
  split; [|split]; try reflexivity.
  intros H; discriminate H.
Qed.

Lemma record_schema_permutes_spec : Permutation record_schema spec_schema.
Proof.
  unfold record_schema, spec_schema.
  apply perm_skip.
  symmetry.
  apply (Permutation_middle
           [Sidebar.Cdi; Sidebar.Mmi; Sidebar.Sig; Sidebar.Nst; Sidebar.Dmin; Sidebar.Gap]
           [Sidebar.Latitude; Sidebar.Longitude; Sidebar.Year; Sidebar.Month]
           Sidebar.Depth).
Qed.

(** C1, amended.  For every assembly the columns are, in this order,
    magnitude, cdi, mmi, sig, nst, dmin, gap, depth, latitude, longitude,
    Year, Month: the twelve fields of the data model, each once, with
    depth eighth. *)
Theorem input_data_columns (ui : Sidebar.t) :
  Pandas.columns (input_data ui) =
    ["magnitude"; "cdi"; "mmi"; "sig"; "nst"; "dmin"; "gap"; "depth";
     "latitude"; "longitude"; "Year"; "Month"]
  /\ Pandas.columns (input_data ui) = map column_of record_schema
  /\ Permutation record_schema spec_schema
  /\ NoDup (Pandas.columns (input_data ui)).
Proof.
  split; [reflexivity|].
  split; [reflexivity|].
  split; [exact record_schema_permutes_spec|].
  rewrite input_data_unfold; simpl.
  repeat (constructor; [simpl; intros H; repeat (destruct H as [H|H]; [discriminate H|]); exact H|]).
  constructor.
Qed.

(** ** The controls and the bounds of the data model *)

Lemma all_fields_complete (x : Sidebar.field) : In x Sidebar.all_fields.
Proof. destruct x; simpl; tauto. Qed.

Lemma within_spec (b : Q * Q) (q : Q) :
  Sidebar.within b q = true <-> (fst b <= q /\ q <= snd b)%Q.
Proof.
  unfold Sidebar.within.
  rewrite andb_true_iff, !Qle_bool_iff.
  reflexivity.
Qed.

(** The range of each control is the bound the data model declares. *)
Lemma control_range_matches_spec (x : Sidebar.field) :
  (fst (Sidebar.control_range x) == fst (spec_bounds x) /\
   snd (Sidebar.control_range x) == snd (spec_bounds x))%Q.
Proof. destruct x; split; reflexivity. Qed.

(** The defaults of the controls are in range whenever the clock gives a
    month of the calendar. *)
Lemma defaults_in_range (now_month : Z) :
  1 <= now_month <= 12 -> Sidebar.in_range (Sidebar.defaults now_month) = true.
Proof.
  intros Hm.
  unfold Sidebar.in_range, Sidebar.all_fields.
  simpl forallb.
  repeat (apply andb_true_iff; split); try reflexivity;
    apply Qle_bool_iff; unfold Qle; simpl; lia.
Qed.

Lemma initial_controls_in_range (e : St.env) :
  1 <= St.now_month e <= 12 -> Sidebar.in_range (initial_controls e) = true.
Proof. apply defaults_in_range. Qed.

(** C8.  When every control holds a value of its declared range, every
    cell of the assembled record lies within the bound the data model
    declares for its field. *)
Theorem input_record_within_bounds (ui : Sidebar.t) :
  Sidebar.in_range ui = true ->
  forall x : Sidebar.field,
    exists v : Py.value,
      Pandas.cell (input_data ui) (column_of x) 0 = Some v /\
      (fst (spec_bounds x) <= Py.to_Q v /\ Py.to_Q v <= snd (spec_bounds x))%Q.
Proof.
  intros Hui x.
  unfold Sidebar.in_range in Hui.
  rewrite forallb_forall in Hui.
  specialize (Hui x (all_fields_complete x)).
  apply within_spec in Hui.
  destruct (control_range_matches_spec x) as [Hlo Hhi].
  exists (Sidebar.control_value ui x).
  split.
  - destruct x; reflexivity.
  - rewrite <- Hlo, <- Hhi. exact Hui.
Qed.

Lemma input_record_within_bounds_witness :
  exists v : Py.value,
    Pandas.cell (input_data (Sidebar.defaults 11)) (column_of Sidebar.Month) 0 = Some v /\
    (fst (spec_bounds Sidebar.Month) <= Py.to_Q v /\
     Py.to_Q v <= snd (spec_bounds Sidebar.Month))%Q.
Proof.
  apply (input_record_within_bounds (Sidebar.defaults 11)).
  reflexivity.
Defined.

(** ** The map *)

Lemma risk_level_cases (m : Q) :
  (7 <= m /\ risk_level m = "High")%Q \/
  (5 <= m /\ m < 7 /\ risk_level m = "Moderate")%Q \/
  (m < 5 /\ risk_level m = "Low")%Q.
Proof.
  unfold risk_level.
  destruct (Qle_bool 7 m) eqn:H7.
  - left. split; [apply Qle_bool_iff; exact H7 | reflexivity].
  - assert (m < 7)%Q as Hlt7.
    { apply Qnot_le_lt. intros H. apply Qle_bool_iff in H. congruence. }
    destruct (Qle_bool 5 m) eqn:H5.
    + right; left. repeat split; [apply Qle_bool_iff; exact H5 | exact Hlt7].
    + right; right. split; [|reflexivity].
      apply Qnot_le_lt. intros H. apply Qle_bool_iff in H. congruence.
Qed.

(** C4.  The risk level of the map depends on the magnitude alone: it is
    High exactly when magnitude >= 7, Moderate exactly when
    5 <= magnitude < 7, Low exactly when magnitude < 5; so 7.5 is High,
    6.0 is Moderate and 4.0 is Low. *)
Theorem risk_level_buckets :
  (forall ui : Sidebar.t,
     Plotly.hover_name (fig_map ui) = risk_level (Sidebar.magnitude ui)) /\
  (forall m : Q,
     (risk_level m = "High" <-> 7 <= m)%Q /\
     (risk_level m = "Moderate" <-> 5 <= m /\ m < 7)%Q /\
     (risk_level m = "Low" <-> m < 5)%Q) /\
  risk_level 7.5 = "High" /\ risk_level 6.0 = "Moderate" /\ risk_level 4.0 = "Low".
Proof.
  split; [reflexivity|].
  split; [|repeat split; reflexivity].
  intros m.
  destruct (risk_level_cases m) as [[H7 E] | [[H5 [H7 E]] | [H5 E]]];
    rewrite E; repeat split; intros;
    try reflexivity; try assumption; try congruence;
    destruct m as [n d]; unfold Qle, Qlt in *; simpl in *; lia.
Qed.

(** ** Computations that only render *)

Lemma extend_nil (w : St.world) : extend w [] = w.
Proof. destruct w; unfold extend; simpl. now rewrite app_nil_r. Qed.

Lemma extend_extend (w : St.world) (xs ys : list St.element) :
  extend (extend w xs) ys = extend w (xs ++ ys).
Proof. unfold extend; simpl. now rewrite app_assoc. Qed.

Lemma emit_renders_only (x : St.element) : renders_only (St.emit x).
Proof. intros w. reflexivity. Qed.

Lemma lift_renders_only {A : Type} (r : Py.result A) : renders_only (St.lift r).
Proof.
  intros w. unfold St.lift, rendered; simpl.
  now rewrite extend_nil.
Qed.

Lemma bind_renders_only {A B : Type} (c : St.App A) (k : A -> St.App B) :
  renders_only c -> (forall a, renders_only (k a)) -> renders_only (St.bind c k).
Proof.
  intros Hc Hk w.
  unfold St.bind, rendered.
  rewrite (Hc w).
  set (w0 := {| St.proc := St.boot; St.page := [] |}).
  destruct (c w0) as [[a|e] w1] eqn:E0; simpl.
  - rewrite (Hk a (extend w (rendered c))).
    rewrite (Hk a w1). simpl.
    assert (w1 = extend w0 (rendered c)) as ->.
    { unfold rendered. fold w0. rewrite E0. simpl. destruct w1 as [p1 pg1].
      generalize (Hc w0). fold w0. rewrite E0. unfold rendered. fold w0.
      rewrite E0. simpl. intros H; injection H as H1. unfold extend; simpl.
      f_equal; congruence. }
    rewrite !extend_extend. unfold extend at 2. simpl. reflexivity.
  - unfold rendered. fold w0. rewrite E0. reflexivity.
Qed.

Lemma try_except_renders_only {A : Type} (body handler : St.App A) :
  renders_only body -> renders_only handler ->
  renders_only (St.try_except body handler).
Proof.
  intros Hb Hh w.
  unfold St.try_except, rendered.
  rewrite (Hb w).
  set (w0 := {| St.proc := St.boot; St.page := [] |}).
  assert (snd (body w0) = extend w0 (rendered body)) as Hw0.
  { rewrite (Hb w0) at 1. reflexivity. }
  destruct (body w0) as [[a|e] w1] eqn:E0; simpl in *; subst w1.
  - reflexivity.
  - destruct (Py.is_Exception e).
    + rewrite (Hh (extend w (rendered body))).
      rewrite (Hh (extend w0 (rendered body))). simpl.
      now rewrite extend_extend.
    + reflexivity.
Qed.

Create HintDb render discriminated.
#[local] Hint Resolve emit_renders_only lift_renders_only : render.
#[local] Hint Extern 2 (renders_only (St.bind _ _)) =>
  apply bind_renders_only; [|intros] : render.
#[local] Hint Extern 2 (renders_only (St.try_except _ _)) =>
  apply try_except_renders_only : render.
#[local] Hint Extern 3 (renders_only (if ?b then _ else _)) => destruct b : render.
#[local] Hint Extern 3 (renders_only (let (_, _) := ?r in _)) => destruct r : render.

Lemma verdict_panel_renders_only (prediction : Z) (prob : Py.float) :
  renders_only (verdict_panel prediction prob).
Proof. unfold verdict_panel. auto 10 with render. Qed.

Lemma feature_importance_panel_renders_only
  (model : Sklearn.classifier) (df : Pandas.DataFrame) :
  renders_only (feature_importance_panel model df).
Proof. unfold feature_importance_panel. auto 10 with render. Qed.

#[local] Hint Resolve verdict_panel_renders_only
  feature_importance_panel_renders_only : render.

Lemma on_button_renders_only
  (e : St.env) (model : Sklearn.classifier) (ui : Sidebar.t) (clicked : bool) :
  renders_only (on_button e model ui clicked).
Proof. unfold on_button. destruct clicked; auto 20 with render. Qed.

(** ** What the button puts on the page *)

Lemma rendered_verdict_panel (prediction : Z) (prob : Py.float) :
  rendered (verdict_panel prediction prob) =
  ((if prediction =? 1
    then [St.Markdown high_risk_heading; St.Warning high_risk_warning]
    else [St.Markdown safe_heading; St.Success safe_message])
   ++ [St.Metric "Tsunami Risk Probability" (format_float_2f prob ++ " %")%string])%list.
Proof.
  unfold rendered, verdict_panel.
  destruct (prediction =? 1); reflexivity.
Qed.

Lemma rendered_importance_missing (model : Sklearn.classifier) (df : Pandas.DataFrame) :
  Sklearn.feature_importances model = None ->
  rendered (feature_importance_panel model df) = [St.Info no_importance_message].
Proof.
  intros H.
  unfold rendered, feature_importance_panel, St.try_except, St.bind, St.lift,
    Sklearn.feature_importances_.
  rewrite H. reflexivity.
Qed.

(** The importance panel puts one element on the page, a bar chart or the
    notice, and never raises. *)
Lemma importance_panel_total (model : Sklearn.classifier) (df : Pandas.DataFrame) :
  fst (feature_importance_panel model df {| St.proc := St.boot; St.page := [] |})
    = Py.Ok tt /\
  exists x : St.element,
    rendered (feature_importance_panel model df) = [x] /\
    (x = St.Info no_importance_message \/
     exists b : Plotly.bar, x = St.PlotlyChart (Plotly.Bar b)).
Proof.
  unfold rendered, feature_importance_panel, St.try_except, St.bind, St.lift,
    Sklearn.feature_importances_.
  destruct (Sklearn.feature_importances model) as [ws|]; simpl.
  - destruct (feature_frame (Pandas.columns df) ws) as [fr|ex] eqn:E; simpl.
    + split; [reflexivity|]. eexists; split; [reflexivity|]. right. eexists; reflexivity.
    + unfold feature_frame in E.
      destruct (Nat.eqb _ _); [discriminate E|]. injection E as <-. simpl.
      split; [reflexivity|]. eexists; split; [reflexivity|]. now left.
  - split; [reflexivity|]. eexists; split; [reflexivity|]. now left.
Qed.

Lemma on_button_rendered
  (e : St.env) (model : Sklearn.classifier) (ui : Sidebar.t) (label : Z) (prob : Py.float) :
  predictor model (input_data ui) = Py.Ok (label, prob) ->
  fst (on_button e model ui true {| St.proc := St.boot; St.page := [] |}) = Py.Ok tt /\
  rendered (on_button e model ui true) =
    (St.Markdown "---"
    :: rendered (verdict_panel label prob)
    ++ [ St.PlotlyChart (Plotly.Indicator (fig_gauge prob));
         St.Info ("🕒 **Last Updated:** " ++ St.now_stamp e)%string;
         St.Markdown "---";
         St.Subheader "🌍 Global Earthquake Visualization";
         St.PlotlyChart (Plotly.ScatterMapbox (fig_map ui));
         St.Subheader "📊 Model Feature Importance" ]
    ++ rendered (feature_importance_panel model (input_data ui)))%list.
Proof.
  intros H.
  destruct (importance_panel_total model (input_data ui)) as [Hok _].
  assert (forall w, fst (verdict_panel label prob w) = Py.Ok tt) as Hv.
  { intros w. unfold verdict_panel. destruct (label =? 1); reflexivity. }
  unfold rendered at 1.
  unfold on_button, St.bind at 1 3, St.lift.
  rewrite H.
  unfold St.bind, St.emit. cbv beta iota zeta.
  rewrite (verdict_panel_renders_only label prob). cbv beta iota zeta.
  rewrite Hv.
  rewrite (feature_importance_panel_renders_only model (input_data ui)).
  rewrite Hok.
  unfold extend. simpl.
  split; [reflexivity|].
  rewrite <- !app_assoc. reflexivity.
Qed.

Lemma predictor_stub (label : Z) (p0 p1 : Q) (rest : list Q)
  (importances : option (list Q)) (df : Pandas.DataFrame) :
  predictor (stub_model label (p0 :: p1 :: rest) importances) df
  = Py.Ok (label, float_mul p1 100).
Proof. reflexivity. Qed.

(** ** The verdict and the metric *)

(** A rational nearer to [k] than one half rounds to [k]. *)
Lemma round_half_even_near (q : Q) (k : Z) :
  (2 * k - 1) * Z.pos (Qden q) < 2 * Qnum q < (2 * k + 1) * Z.pos (Qden q) ->
  round_half_even q = k.
Proof.
  destruct q as [n d]. cbn [Qnum Qden]. intros [Hlo Hhi].
  unfold round_half_even. cbn [Qnum Qden].
  pose proof (Z.div_mod n (Z.pos d) ltac:(lia)) as Hdm.
  pose proof (Z.mod_pos_bound n (Z.pos d) ltac:(lia)) as Hr.
  set (fl := n / Z.pos d) in *. set (r := n mod Z.pos d) in *.
  destruct (2 * r ?= Z.pos d) eqn:C.
  - apply Z.compare_eq in C. exfalso.
    assert (2 * k - 1 < 2 * fl + 1) by (apply (Z.mul_lt_mono_pos_r (Z.pos d)); lia).
    assert (2 * fl + 1 < 2 * k + 1) by (apply (Z.mul_lt_mono_pos_r (Z.pos d)); lia).
    lia.
  - rewrite Z.compare_lt_iff in C.
    assert (2 * k - 1 < 2 * fl + 1) by (apply (Z.mul_lt_mono_pos_r (Z.pos d)); lia).
    assert (2 * fl < 2 * k + 1) by (apply (Z.mul_lt_mono_pos_r (Z.pos d)); lia).
    lia.
  - rewrite Z.compare_gt_iff in C.
    assert (2 * k - 1 < 2 * fl + 2) by (apply (Z.mul_lt_mono_pos_r (Z.pos d)); lia).
    assert (2 * fl + 1 < 2 * k + 1) by (apply (Z.mul_lt_mono_pos_r (Z.pos d)); lia).
    lia.
Qed.

(** C3.  With a stubbed model that returns class 1 and, for class 1,
    the float 0.82, the product of line 85 is the float 82 and the button
    renders the high-risk heading and warning and then the metric
    82.00 %; with any stubbed label and probability the high-risk pair is
    rendered when the label is 1 and the safe-conditions pair otherwise,
    followed by the float product of the probability and 100 with two
    decimals. *)
Theorem stub_verdict_and_metric
  (e : St.env) (ui : Sidebar.t) (importances : option (list Q)) :
  binary64 0.82 = Py.Finite float_0_82 /\
  float_mul float_0_82 100 = Py.Finite 82 /\
  (exists rest : list St.element,
     rendered (on_button e (stub_model 1 [float_0_18; float_0_82] importances) ui true) =
       [ St.Markdown "---";
         St.Markdown high_risk_heading;
         St.Warning high_risk_warning;
         St.Metric "Tsunami Risk Probability" "82.00 %" ] ++ rest)%list /\
  (forall (label : Z) (p0 p1 : Q),
     exists rest : list St.element,
       rendered (on_button e (stub_model label [p0; p1] importances) ui true) =
         (St.Markdown "---"
          :: (if label =? 1
              then [St.Markdown high_risk_heading; St.Warning high_risk_warning]
              else [St.Markdown safe_heading; St.Success safe_message])
          ++ St.Metric "Tsunami Risk Probability"
               (format_float_2f (float_mul p1 100) ++ " %")%string
          :: rest)%list).
Proof.
  assert (forall (label : Z) (p0 p1 : Q),
     exists rest : list St.element,
       rendered (on_button e (stub_model label [p0; p1] importances) ui true) =
         (St.Markdown "---"
          :: (if label =? 1
              then [St.Markdown high_risk_heading; St.Warning high_risk_warning]
              else [St.Markdown safe_heading; St.Success safe_message])
          ++ St.Metric "Tsunami Risk Probability"
               (format_float_2f (float_mul p1 100) ++ " %")%string
          :: rest)%list) as Hgen.
  { intros label p0 p1.
    destruct (on_button_rendered e (stub_model label [p0; p1] importances) ui
                label (float_mul p1 100) (predictor_stub _ _ _ _ _ _)) as [_ ->].
    rewrite rendered_verdict_panel.
    eexists. rewrite <- app_assoc. simpl. reflexivity. }
  split; [vm_compute; reflexivity|].
  assert (float_mul float_0_82 100 = Py.Finite 82) as H82 by (vm_compute; reflexivity).
  split; [exact H82|].
  split; [|exact Hgen].
  destruct (Hgen 1 float_0_18 float_0_82) as [rest Hrest].
  exists rest. rewrite Hrest, H82. reflexivity.
Qed.

(** The button branch renders a given heading only in the verdict. *)
Lemma heading_only_in_verdict
  (e : St.env) (model : Sklearn.classifier) (ui : Sidebar.t)
  (label : Z) (prob : Py.float) (x : St.element) :
  predictor model (input_data ui) = Py.Ok (label, prob) ->
  x = St.Markdown high_risk_heading \/ x = St.Warning high_risk_warning \/
  x = St.Markdown safe_heading \/ x = St.Success safe_message ->
  (In x (rendered (on_button e model ui true)) <->
   In x (if label =? 1
         then [St.Markdown high_risk_heading; St.Warning high_risk_warning]
         else [St.Markdown safe_heading; St.Success safe_message])).
Proof.
  intros Hpred Hx.
  rewrite (proj2 (on_button_rendered e model ui label prob Hpred)).
  rewrite rendered_verdict_panel.
  destruct (importance_panel_total model (input_data ui)) as [_ (y & -> & Hy)].
  split.
  - intros [Hin|Hin].
    + exfalso. destruct Hx as [-> | [-> | [-> | ->]]]; discriminate Hin.
    + apply in_app_or in Hin. destruct Hin as [Hin|Hin].
      * apply in_app_or in Hin. destruct Hin as [Hin|[Hin|[]]]; [exact Hin|].
        exfalso. destruct Hx as [-> | [-> | [-> | ->]]]; discriminate Hin.
      * exfalso. apply in_app_or in Hin. destruct Hin as [Hin|[Hin|[]]].
        -- simpl in Hin.
           destruct Hx as [-> | [-> | [-> | ->]]];
             repeat (destruct Hin as [Hin|Hin]; [discriminate Hin|]); exact Hin.
        -- destruct Hy as [->|[b ->]];
             destruct Hx as [-> | [-> | [-> | ->]]]; discriminate Hin.
  - intros Hin. right. apply in_or_app. left. apply in_or_app. left. exact Hin.
Qed.

(** C10.  When the classification returns a label other than 1 for the
    record, 0 or a value outside {0,1}, the run of the button renders the
    safe-conditions heading and message under the rule and neither
    high-risk element; the high-risk heading is on the page exactly when
    the label is 1. *)
Theorem verdict_safe_unless_one
  (e : St.env) (model : Sklearn.classifier) (ui : Sidebar.t)
  (label : Z) (labels : list Z) (p0 p1 : Q) (ps : list Q) (rows : list (list Q)) :
  Sklearn.predict model (input_data ui) = Py.Ok (label :: labels) ->
  Sklearn.predict_proba model (input_data ui) = Py.Ok ((p0 :: p1 :: ps) :: rows) ->
  (label <> 1 ->
   (exists rest : list St.element,
      rendered (on_button e model ui true) =
        St.Markdown "---" :: St.Markdown safe_heading :: St.Success safe_message :: rest) /\
   ~ In (St.Markdown high_risk_heading) (rendered (on_button e model ui true)) /\
   ~ In (St.Warning high_risk_warning) (rendered (on_button e model ui true))) /\
  (In (St.Markdown high_risk_heading) (rendered (on_button e model ui true))
   <-> label = 1).
Proof.
  intros Hp Hpp.
  assert (predictor model (input_data ui) = Py.Ok (label, float_mul p1 100)) as Hpred.
  { unfold predictor. rewrite Hp. simpl. rewrite Hpp. reflexivity. }
  pose proof (heading_only_in_verdict e model ui label (float_mul p1 100)
                (St.Markdown high_risk_heading) Hpred (or_introl eq_refl)) as Hhead.
  pose proof (heading_only_in_verdict e model ui label (float_mul p1 100)
                (St.Warning high_risk_warning) Hpred (or_intror (or_introl eq_refl))) as Hwarn.
  split.
  - intros Hne.
    apply Z.eqb_neq in Hne. rewrite Hne in Hhead, Hwarn.
    split; [|split].
    + rewrite (proj2 (on_button_rendered e model ui label (float_mul p1 100) Hpred)).
      rewrite rendered_verdict_panel, Hne.
      eexists. simpl. reflexivity.
    + intros Hin. apply Hhead in Hin.
      destruct Hin as [Hin|[Hin|[]]]; discriminate Hin.
    + intros Hin. apply Hwarn in Hin.
      destruct Hin as [Hin|[Hin|[]]]; discriminate Hin.
  - rewrite Hhead.
    destruct (Z.eqb_spec label 1) as [->|Hne].
    + split; [reflexivity | intros _; left; reflexivity].
    + split; [|contradiction].
      intros [Hin|[Hin|[]]]; discriminate Hin.
Qed.

Lemma verdict_safe_unless_one_witness :
  let model := stub_model 2 [0.25; 0.25; 0.5]%Q None in
  let page := rendered (on_button (disk_with model) model (Sidebar.defaults 11) true) in
  (exists rest : list St.element,
     page = St.Markdown "---" :: St.Markdown safe_heading :: St.Success safe_message :: rest) /\
  ~ In (St.Markdown high_risk_heading) page /\
  ~ In (St.Warning high_risk_warning) page.
Proof.
  cbv zeta.
  apply (proj1 (verdict_safe_unless_one
                  (disk_with (stub_model 2 [0.25; 0.25; 0.5]%Q None))
                  (stub_model 2 [0.25; 0.25; 0.5]%Q None) (Sidebar.defaults 11)
                  2 [] 0.25%Q 0.25%Q [0.5%Q] [] eq_refl eq_refl)).
  intros H; discriminate H.
Defined.

(** ** The gauge *)

(** C9 fails as stated: the first step of the gauge is coloured
    lightgreen, not green, so the three steps are not the three bands of
    the claim. *)
Lemma gauge_first_band_not_green :
  map (fun s => (Plotly.range s, Plotly.color s))
      (Plotly.steps (fig_gauge (Py.Finite 82))) <>
    [ ((0, 40)%Q, "green"); ((40, 70)%Q, "gold"); ((70, 100)%Q, "tomato") ] /\
  option_map Plotly.color (nth_error (Plotly.steps (fig_gauge (Py.Finite 82))) 0)
    = Some "lightgreen".
Proof.
  split; [|reflexivity].
  intros H; discriminate H.
Qed.

(** C9, amended.  The gauge the button renders has the displayed
    probability as its value, the axis 0 to 100, and exactly three steps,
    each given by its two end points: 0 to 40 lightgreen, 40 to 70 gold,
    70 to 100 tomato; neighbouring steps share an end point. *)
Theorem gauge_value_and_bands
  (e : St.env) (model : Sklearn.classifier) (ui : Sidebar.t) (label : Z) (prob : Py.float) :
  predictor model (input_data ui) = Py.Ok (label, prob) ->
  In (St.PlotlyChart (Plotly.Indicator (fig_gauge prob)))
     (rendered (on_button e model ui true)) /\
  In (St.Metric "Tsunami Risk Probability" (format_float_2f prob ++ " %"))
     (rendered (on_button e model ui true)) /\
  Plotly.value (fig_gauge prob) = prob /\
  Plotly.axis_range (fig_gauge prob) = (0, 100)%Q /\
  map (fun s => (Plotly.range s, Plotly.color s)) (Plotly.steps (fig_gauge prob)) =
    [ ((0, 40)%Q, "lightgreen"); ((40, 70)%Q, "gold"); ((70, 100)%Q, "tomato") ] /\
  List.length (Plotly.steps (fig_gauge prob)) = 3%nat.
Proof.
  intros H.
  destruct (on_button_rendered e model ui label prob H) as [_ ->].
  rewrite rendered_verdict_panel.
  repeat split.
  - right. apply in_or_app. right. left. reflexivity.
  - right. apply in_or_app. left. apply in_or_app. right. left. reflexivity.
Qed.

Lemma gauge_value_and_bands_witness :
  In (St.PlotlyChart (Plotly.Indicator (fig_gauge (Py.Finite 82))))
     (rendered (on_button (disk_with (stub_model 1 [float_0_18; float_0_82] None))
                          (stub_model 1 [float_0_18; float_0_82] None)
                          (Sidebar.defaults 11) true)) /\
  Plotly.value (fig_gauge (Py.Finite 82)) = Py.Finite 82.
Proof.
  assert (predictor (stub_model 1 [float_0_18; float_0_82] None)
                    (input_data (Sidebar.defaults 11)) = Py.Ok (1, Py.Finite 82)) as Hpred
    by (vm_compute; reflexivity).
  pose proof (gauge_value_and_bands
                (disk_with (stub_model 1 [float_0_18; float_0_82] None))
                (stub_model 1 [float_0_18; float_0_82] None) (Sidebar.defaults 11)
                1 (Py.Finite 82) Hpred) as H.
  split; [exact (proj1 H) | exact (proj1 (proj2 (proj2 H)))].
Defined.

(** ** The predictor *)

Lemma getitem_Ok {A : Type} (xs : list A) (i : nat) (x : A) :
  Py.getitem xs i = Py.Ok x <-> nth_error xs i = Some x.
Proof.
  unfold Py.getitem.
  destruct (nth_error xs i); split; intros H;
    try discriminate H; injection H as ->; reflexivity.
Qed.

(** The predictor returns only when both calls of the model return and
    the two subscripts are in range. *)
Lemma predictor_Ok_inv
  (model : Sklearn.classifier) (df : Pandas.DataFrame) (label : Z) (prob : Py.float) :
  predictor model df = Py.Ok (label, prob) ->
  exists (labels : list Z) (probas : list (list Q)) (row : list Q) (p1 : Q),
    Sklearn.predict model df = Py.Ok labels /\ nth_error labels 0 = Some label /\
    Sklearn.predict_proba model df = Py.Ok probas /\ nth_error probas 0 = Some row /\
    nth_error row 1 = Some p1 /\ prob = float_mul p1 100.
Proof.
  unfold predictor.
  destruct (Sklearn.predict model df) as [labels|]; [|discriminate].
  destruct (Py.getitem labels 0) as [l|] eqn:El; [|discriminate].
  destruct (Sklearn.predict_proba model df) as [probas|]; [|discriminate].
  destruct (Py.getitem probas 0) as [row|] eqn:Er; [|discriminate].
  destruct (Py.getitem row 1) as [p1|] eqn:Ep; [|discriminate].
  intros H; injection H as <- <-.
  exists labels, probas, row, p1.
  apply getitem_Ok in El. apply getitem_Ok in Er. apply getitem_Ok in Ep.
  auto 10.
Qed.

(** On every probability of up to three decimals, on 1/800 and on
    floats near the ends of the range, [float_mul] by 100 is the product
    the hardware computes; and the two literals are read as the hardware
    reads them. *)
Lemma float_mul_agrees_with_hardware :
  forallb (fun k => agrees_with_hardware (hardware_ratio (Z.of_nat k) 1000)) (seq 0 1001) = true /\
  agrees_with_hardware (hardware_ratio 1 800) = true /\
  agrees_with_hardware (FloatOps.Z.ldexp (hardware_ratio 1 3) (-1080)) = true /\
  agrees_with_hardware (FloatOps.Z.ldexp (hardware_ratio 2 3) 1017) = true /\
  agrees_with_hardware (FloatOps.Z.ldexp (hardware_ratio 2 3) 1018) = true /\
  of_hardware (hardware_ratio 82 100) = Some (Py.Finite float_0_82) /\
  of_hardware (hardware_ratio 18 100) = Some (Py.Finite float_0_18).
Proof. vm_compute. repeat split. Qed.

(** Rounding to the nearest integer keeps the sign and stays below an
    integer bound. *)
Lemma round_half_even_nonneg (q : Q) : 0 <= Qnum q -> 0 <= round_half_even q.
Proof.
  destruct q as [n d]. cbn [Qnum]. intros Hn.
  unfold round_half_even. cbn [Qnum Qden].
  pose proof (Z.div_pos n (Z.pos d) Hn ltac:(lia)) as Hfl.
  destruct (2 * (n mod Z.pos d) ?= Z.pos d); [destruct (Z.even _)| |]; lia.
Qed.

Lemma round_half_even_le (q : Q) (k : Z) :
  Qnum q <= k * Z.pos (Qden q) -> round_half_even q <= k.
Proof.
  destruct q as [n d]. cbn [Qnum Qden]. intros Hk.
  unfold round_half_even. cbn [Qnum Qden].
  pose proof (Z.div_mod n (Z.pos d) ltac:(lia)) as Hdm.
  pose proof (Z.mod_pos_bound n (Z.pos d) ltac:(lia)) as Hr.
  set (fl := n / Z.pos d) in *. set (r := n mod Z.pos d) in *.
  assert (fl <= k) as Hfl.
  { apply (Z.mul_le_mono_pos_r _ _ (Z.pos d)); lia. }
  assert (0 < r -> fl + 1 <= k) as Hup.
  { intros Hpos. assert (fl < k); [|lia].
    apply (Z.mul_lt_mono_pos_r (Z.pos d)); lia. }
  destruct (2 * r ?= Z.pos d) eqn:C.
  - apply Z.compare_eq in C. destruct (Z.even fl); [exact Hfl | apply Hup; lia].
  - exact Hfl.
  - rewrite Z.compare_gt_iff in C. apply Hup. lia.
Qed.

Lemma floor_log2_le_7 (n : Z) (d : positive) :
  0 < n -> n <= 100 * Z.pos d -> floor_log2 (n # d) <= 7.
Proof.
  intros Hn Hle.
  unfold floor_log2. cbn [Qnum Qden].
  assert (Z.log2 n <= 7 + Z.log2 (Z.pos d)) as Hlog.
  { rewrite <- (Z.log2_mul_pow2 (Z.pos d) 7) by lia.
    apply Z.log2_le_mono. change (2 ^ 7) with 128. lia. }
  destruct (Qle_bool _ _); lia.
Qed.

Lemma pow2_neg (e : Z) : e < 0 -> pow2 e = 1 # Z.to_pos (2 ^ (- e)).
Proof.
  intros He. unfold pow2.
  destruct (Z.leb_spec 0 e); [lia | reflexivity].
Qed.

(** Rounding to binary64 keeps a value of [0,100] finite and within
    [0,100]: both ends are floats. *)
Lemma binary64_percent (x : Q) :
  (0 <= x /\ x <= 100)%Q ->
  exists q : Q, binary64 x = Py.Finite q /\ (0 <= q /\ q <= 100)%Q.
Proof.
  intros [H0 H100].
  unfold binary64.
  destruct (Qeq_bool x 0) eqn:Ez.
  { exists 0%Q. split; [reflexivity|]. split; [apply Qle_refl | discriminate]. }
  assert (Qle_bool 0 x = true) as -> by (apply Qle_bool_iff; exact H0).
  destruct x as [n d].
  assert (0 < n) as Hn.
  { unfold Qle in H0. cbn [Qnum Qden] in H0.
    assert (n <> 0); [|lia].
    intros ->. unfold Qeq_bool in Ez. cbn in Ez. discriminate Ez. }
  assert (n <= 100 * Z.pos d) as Hle.
  { unfold Qle in H100. cbn [Qnum Qden] in H100. lia. }
  unfold Qabs. rewrite (Z.abs_eq n) by lia.
  pose proof (floor_log2_le_7 n d Hn Hle) as Hfl.
  set (e := Z.max (floor_log2 (n # d) - 52) (-1074)).
  assert (e < 0) as He by (unfold e; lia).
  rewrite (pow2_neg e He).
  set (P := Z.to_pos (2 ^ (- e))).
  set (m := round_half_even ((n # d) / (1 # P))).
  assert (0 <= m <= 100 * Z.pos P) as Hm.
  { unfold m. split.
    - apply round_half_even_nonneg. unfold Qdiv, Qmult, Qinv. cbn [Qnum Qden]. lia.
    - apply round_half_even_le. unfold Qdiv, Qmult, Qinv. cbn [Qnum Qden].
      rewrite Pos.mul_1_r. nia. }
  assert (Qred (inject_Z m * (1 # P)) == m # P)%Q as Hr.
  { rewrite Qred_correct. unfold Qeq, Qmult, inject_Z. cbn [Qnum Qden]. lia. }
  assert (Qle_bool (pow2 1024) (Qred (inject_Z m * (1 # P))) = false) as ->.
  { destruct (Qle_bool _ _) eqn:E; [|reflexivity].
    apply Qle_bool_iff in E. rewrite Hr in E.
    assert (100 < pow2 1024)%Q as Hbig by reflexivity.
    exfalso. apply (Qlt_irrefl 100).
    eapply Qlt_le_trans; [exact Hbig|].
    eapply Qle_trans; [exact E|].
    unfold Qle. cbn [Qnum Qden]. lia. }
  eexists. split; [reflexivity|].
  rewrite Hr. unfold Qle. cbn [Qnum Qden]. lia.
Qed.

(** C2 fails as stated.  A classifier over three classes answers label 2
    for the default record, with every probability in [0,1], and the
    predictor returns that label, which is neither 0 nor 1.  A classifier
    fitted on one class answers label 0 and one probability per row, and
    the predictor returns nothing: the subscript for class 1 raises. *)
Lemma predictor_label_not_binary :
  let df := input_data (Sidebar.defaults 11) in
  (let model := stub_model 2 [0.25; 0.25; 0.5]%Q None in
   Sklearn.predict model df = Py.Ok [2] /\
   (forall q : Q, In q [0.25; 0.25; 0.5]%Q -> (0 <= q <= 1)%Q) /\
   predictor model df = Py.Ok (2, Py.Finite 25) /\
   ~ (exists (label : Z) (prob : Py.float),
        predictor model df = Py.Ok (label, prob) /\ (label = 0 \/ label = 1))) /\
  (let model := stub_model 0 [1%Q] None in
   Sklearn.predict model df = Py.Ok [0] /\
   Sklearn.predict_proba model df = Py.Ok [[1%Q]] /\
   ~ (exists (label : Z) (prob : Py.float),
        predictor model df = Py.Ok (label, prob))).
Proof.
  cbv zeta.
  split.
  - split; [reflexivity|].
    split.
    { intros q [<-|[<-|[<-|[]]]]; unfold Qle; simpl; lia. }
    assert (predictor (stub_model 2 [0.25; 0.25; 0.5]%Q None)
                      (input_data (Sidebar.defaults 11)) = Py.Ok (2, Py.Finite 25)) as Hpred
      by (vm_compute; reflexivity).
    split; [exact Hpred|].
    intros (label & prob & H & Hl).
    rewrite Hpred in H.
    injection H as <- _.
    destruct Hl as [Hl|Hl]; discriminate Hl.
  - split; [reflexivity|].
    split; [reflexivity|].
    intros (label & prob & H).
    discriminate H.
Qed.

(** C2, amended.  For every record for which the classification returns
    a label for the first row and the probability estimation a first row
    with an entry for class 1, the predictor returns that label and the
    float product of that probability and 100; the label is 0 or 1
    whenever the classification returns only such labels, and the
    product is a finite percentage of [0,100] whenever the per-class
    probabilities lie in [0,1]. *)
Theorem predictor_returns
  (model : Sklearn.classifier) (ui : Sidebar.t)
  (labels : list Z) (label : Z) (probas : list (list Q)) (row : list Q) (p1 : Q) :
  Sklearn.predict model (input_data ui) = Py.Ok labels ->
  nth_error labels 0 = Some label ->
  Sklearn.predict_proba model (input_data ui) = Py.Ok probas ->
  nth_error probas 0 = Some row ->
  nth_error row 1 = Some p1 ->
  predictor model (input_data ui) = Py.Ok (label, float_mul p1 100) /\
  ((forall l : Z, In l labels -> l = 0 \/ l = 1) -> label = 0 \/ label = 1) /\
  ((forall (r : list Q) (q : Q), In r probas -> In q r -> (0 <= q <= 1)%Q) ->
   exists percent : Q,
     float_mul p1 100 = Py.Finite percent /\ (0 <= percent <= 100)%Q).
Proof.
  intros Hp Hl Hpp Hr Hp1.
  split; [|split].
  - unfold predictor.
    rewrite Hp.
    rewrite (proj2 (getitem_Ok labels 0 label) Hl).
    rewrite Hpp.
    rewrite (proj2 (getitem_Ok probas 0 row) Hr).
    rewrite (proj2 (getitem_Ok row 1 p1) Hp1).
    reflexivity.
  - intros Hbin. apply Hbin. eapply nth_error_In; exact Hl.
  - intros Hunit.
    assert (0 <= p1 <= 1)%Q as [H0 H1].
    { apply (Hunit row p1).
      - eapply nth_error_In; exact Hr.
      - eapply nth_error_In; exact Hp1. }
    apply binary64_percent.
    destruct p1 as [n d]. unfold Qle, Qmult in *. cbn [Qnum Qden] in *.
    rewrite Pos.mul_1_r. lia.
Qed.

Lemma predictor_returns_witness :
  predictor (stub_model 1 [float_0_18; float_0_82] None) (input_data (Sidebar.defaults 11))
    = Py.Ok (1, float_mul float_0_82 100) /\
  (1 = 0 \/ 1 = 1) /\
  (exists percent : Q,
     float_mul float_0_82 100 = Py.Finite percent /\ (0 <= percent <= 100)%Q).
Proof.
  pose proof (predictor_returns
                (stub_model 1 [float_0_18; float_0_82] None) (Sidebar.defaults 11)
                [1] 1 [[float_0_18; float_0_82]] [float_0_18; float_0_82] float_0_82
                eq_refl eq_refl eq_refl eq_refl eq_refl) as (H1 & H2 & H3).
  split; [exact H1|].
  split.
  - apply H2. intros l [<-|[]]. right; reflexivity.
  - apply H3. intros r q [<-|[]] [<-|[<-|[]]]; unfold Qle; simpl; lia.
Defined.

(** ** Exceptions *)

Lemma on_button_run
  (e : St.env) (model : Sklearn.classifier) (ui : Sidebar.t)
  (label : Z) (prob : Py.float) (w : St.world) :
  predictor model (input_data ui) = Py.Ok (label, prob) ->
  on_button e model ui true w =
    (Py.Ok tt, extend w (rendered (on_button e model ui true))).
Proof.
  intros H.
  rewrite (on_button_renders_only e model ui true w).
  now rewrite (proj1 (on_button_rendered e model ui label prob H)).
Qed.

Lemma on_button_raises
  (e : St.env) (model : Sklearn.classifier) (ui : Sidebar.t)
  (ex : Py.exn) (w : St.world) :
  predictor model (input_data ui) = Py.Raise ex ->
  on_button e model ui true w = (Py.Raise ex, w).
Proof.
  intros H. unfold on_button, St.bind, St.lift. now rewrite H.
Qed.

(** The elements of a run above the button. *)
Lemma rerun_unfold
  (e : St.env) (ui : Sidebar.t) (clicked : bool) (p : St.process)
  (model : Sklearn.classifier) (w1 : St.world) :
  load_model e {| St.proc := p; St.page := [St.Markdown style_sheet] |} = (Py.Ok model, w1) ->
  exists header : list St.element,
    rerun e ui clicked p = on_button e model ui clicked (extend w1 header).
Proof.
  intros H.
  unfold rerun, script, St.bind, St.emit. simpl.
  rewrite H.
  eexists. unfold extend. simpl.
  rewrite <- !app_assoc. simpl. reflexivity.
Qed.

Lemma rerun_load_fails
  (e : St.env) (ui : Sidebar.t) (clicked : bool) (p : St.process)
  (ex : Py.exn) (w1 : St.world) :
  load_model e {| St.proc := p; St.page := [St.Markdown style_sheet] |} = (Py.Raise ex, w1) ->
  rerun e ui clicked p = (Py.Raise ex, w1).
Proof.
  intros H.
  unfold rerun, script, St.bind, St.emit. simpl.
  now rewrite H.
Qed.

Lemma no_bar_before_importance (e : St.env) (ui : Sidebar.t) (label : Z) (prob : Py.float)
  (b : Plotly.bar) :
  ~ In (St.PlotlyChart (Plotly.Bar b))
       (St.Markdown "---"
        :: rendered (verdict_panel label prob)
        ++ [ St.PlotlyChart (Plotly.Indicator (fig_gauge prob));
             St.Info ("🕒 **Last Updated:** " ++ St.now_stamp e)%string;
             St.Markdown "---";
             St.Subheader "🌍 Global Earthquake Visualization";
             St.PlotlyChart (Plotly.ScatterMapbox (fig_map ui));
             St.Subheader "📊 Model Feature Importance" ])%list.
Proof.
  rewrite rendered_verdict_panel.
  destruct (label =? 1); simpl; intuition discriminate.
Qed.

(** C5.  When the model has no feature importances, reading them raises
    inside the guarded block, the notice is rendered in place of the bar
    chart and the run ends without an exception; an exception raised by
    the classification or by the probability estimation ends the run
    with that exception. *)
Theorem importance_failure_recovered_others_propagate
  (e : St.env) (ui : Sidebar.t) (w : St.world) :
  (forall (model : Sklearn.classifier) (label : Z) (prob : Py.float),
     Sklearn.feature_importances model = None ->
     predictor model (input_data ui) = Py.Ok (label, prob) ->
     (exists msg : string,
        Sklearn.feature_importances_ model = Py.Raise (Py.AttributeError msg)) /\
     feature_importance_panel model (input_data ui) w
       = (Py.Ok tt, extend w [St.Info no_importance_message]) /\
     exists before : list St.element,
       on_button e model ui true w
         = (Py.Ok tt, extend w (before ++ [St.Info no_importance_message])) /\
       forall b : Plotly.bar,
         ~ In (St.PlotlyChart (Plotly.Bar b)) (before ++ [St.Info no_importance_message])) /\
  (forall (model : Sklearn.classifier) (ex : Py.exn),
     Sklearn.predict model (input_data ui) = Py.Raise ex ->
     on_button e model ui true w = (Py.Raise ex, w)) /\
  (forall (model : Sklearn.classifier) (label : Z) (rest : list Z) (ex : Py.exn),
     Sklearn.predict model (input_data ui) = Py.Ok (label :: rest) ->
     Sklearn.predict_proba model (input_data ui) = Py.Raise ex ->
     on_button e model ui true w = (Py.Raise ex, w)).
Proof.
  split; [|split].
  - intros model label prob Hnone Hpred.
    split.
    { unfold Sklearn.feature_importances_. rewrite Hnone. eexists; reflexivity. }
    split.
    { rewrite (feature_importance_panel_renders_only model (input_data ui) w).
      rewrite (rendered_importance_missing model (input_data ui) Hnone).
      now rewrite (proj1 (importance_panel_total model (input_data ui))). }
    rewrite (on_button_run e model ui label prob w Hpred).
    rewrite (proj2 (on_button_rendered e model ui label prob Hpred)).
    rewrite (rendered_importance_missing model (input_data ui) Hnone).
    eexists. split.
    + rewrite app_comm_cons, app_assoc. reflexivity.
    + intros b Hin. apply in_app_or in Hin. destruct Hin as [Hin|[Hin|[]]].
      * rewrite <- app_comm_cons in Hin.
        exact (no_bar_before_importance e ui label prob b Hin).
      * discriminate Hin.
  - intros model ex Hp.
    apply on_button_raises. unfold predictor. now rewrite Hp.
  - intros model label rest ex Hp Hpp.
    apply on_button_raises. unfold predictor. rewrite Hp. simpl. now rewrite Hpp.
Qed.

Lemma importance_failure_recovered_others_propagate_witness :
  let w := {| St.proc := St.boot; St.page := [] |} in
  let e := disk_with (stub_model 0 [0.9; 0.1]%Q None) in
  let ui := Sidebar.defaults 11 in
  feature_importance_panel (stub_model 0 [0.9; 0.1]%Q None) (input_data ui) w
    = (Py.Ok tt, extend w [St.Info no_importance_message]) /\
  on_button e (broken_model (Py.Raise (Py.RuntimeError "predict")) Py.KeyboardInterrupt) ui true w
    = (Py.Raise (Py.RuntimeError "predict"), w) /\
  on_button e (broken_model (Py.Ok [1]) (Py.ValueError "predict_proba")) ui true w
    = (Py.Raise (Py.ValueError "predict_proba"), w).
Proof.
  cbv zeta.
  pose proof (importance_failure_recovered_others_propagate
                (disk_with (stub_model 0 [0.9; 0.1]%Q None))
                (Sidebar.defaults 11)
                {| St.proc := St.boot; St.page := [] |}) as (H1 & H2 & H3).
  split; [|split].
  - exact (proj1 (proj2 (H1 (stub_model 0 [0.9; 0.1]%Q None) 0 (float_mul 0.1 100)
                            eq_refl eq_refl))).
  - exact (H2 (broken_model (Py.Raise (Py.RuntimeError "predict")) Py.KeyboardInterrupt)
              (Py.RuntimeError "predict") eq_refl).
  - exact (H3 (broken_model (Py.Ok [1]) (Py.ValueError "predict_proba"))
              1 [] (Py.ValueError "predict_proba") eq_refl eq_refl).
Defined.

(** ** The model loader *)

Lemma load_model_cached (e : St.env) (model : Sklearn.classifier) (w : St.world) :
  St.cache (St.proc w) = Some model -> load_model e w = (Py.Ok model, w).
Proof.
  intros H. unfold load_model, St.cache_resource. now rewrite H.
Qed.

Lemma load_model_first (e : St.env) (model : Sklearn.classifier) (w : St.world) :
  St.files e "Tsunami_model.pkl" = Py.Ok model ->
  St.cache (St.proc w) = None ->
  load_model e w =
    (Py.Ok model,
     {| St.proc := {| St.cache := Some model; St.loads := S (St.loads (St.proc w)) |};
        St.page := St.page w |}).
Proof.
  intros Hf Hc.
  unfold load_model, St.cache_resource, joblib_load.
  rewrite Hc, Hf. reflexivity.
Qed.

(** A file that cannot be read is read again by the next call: nothing
    was stored. *)
Lemma load_model_failure_not_cached (e : St.env) (ex : Py.exn) (w : St.world) :
  St.files e "Tsunami_model.pkl" = Py.Raise ex ->
  St.cache (St.proc w) = None ->
  load_model e w =
    (Py.Raise ex,
     {| St.proc := {| St.cache := None; St.loads := S (St.loads (St.proc w)) |};
        St.page := St.page w |}).
Proof.
  intros Hf Hc.
  unfold load_model, St.cache_resource, joblib_load.
  rewrite Hc, Hf. reflexivity.
Qed.

Lemma call_times_cached (e : St.env) (model : Sklearn.classifier) (n : nat) (w : St.world) :
  St.cache (St.proc w) = Some model ->
  call_times n (load_model e) w = (repeat (Py.Ok model) n, w).
Proof.
  intros H.
  induction n as [|n IH]; simpl.
  - reflexivity.
  - rewrite (load_model_cached e model w H), IH. reflexivity.
Qed.

Lemma rerun_keeps_cache
  (e : St.env) (ui : Sidebar.t) (clicked : bool) (p : St.process)
  (model : Sklearn.classifier) :
  St.cache p = Some model -> St.proc (snd (rerun e ui clicked p)) = p.
Proof.
  intros H.
  destruct (rerun_unfold e ui clicked p model
              {| St.proc := p; St.page := [St.Markdown style_sheet] |}
              (load_model_cached e model
                 {| St.proc := p; St.page := [St.Markdown style_sheet] |} H))
    as [header ->].
  rewrite (on_button_renders_only e model ui clicked). reflexivity.
Qed.

Lemma reruns_keep_cache
  (e : St.env) (inputs : list (Sidebar.t * bool)) (p : St.process)
  (model : Sklearn.classifier) :
  St.cache p = Some model -> reruns e inputs p = p.
Proof.
  intros H.
  induction inputs as [|[ui clicked] rest IH]; simpl.
  - reflexivity.
  - rewrite (rerun_keeps_cache e ui clicked p model H). exact IH.
Qed.

(** C6.  When the model file deserializes, two or more calls of the
    loader in a fresh process all return the model and [joblib.load] has
    run once; the same holds over as many reruns of the script. *)
Theorem load_model_deserializes_once
  (e : St.env) (model : Sklearn.classifier) (n : nat) :
  St.files e "Tsunami_model.pkl" = Py.Ok model ->
  (2 <= n)%nat ->
  (forall pg : list St.element,
     call_times n (load_model e) {| St.proc := St.boot; St.page := pg |} =
       (repeat (Py.Ok model) n,
        {| St.proc := {| St.cache := Some model; St.loads := 1 |}; St.page := pg |})) /\
  (forall inputs : list (Sidebar.t * bool),
     List.length inputs = n ->
     reruns e inputs St.boot = {| St.cache := Some model; St.loads := 1 |}).
Proof.
  intros Hf Hn.
  split.
  - intros pg.
    destruct n as [|n]; [lia|]. simpl.
    rewrite (load_model_first e model
               {| St.proc := St.boot; St.page := pg |} Hf eq_refl).
    cbv [St.boot St.loads St.proc St.page].
    rewrite (call_times_cached e model n
               {| St.proc := {| St.cache := Some model; St.loads := 1 |};
                  St.page := pg |} eq_refl).
    reflexivity.
  - intros inputs Hlen.
    destruct inputs as [|[ui clicked] rest]; [simpl in Hlen; lia|]. simpl.
    pose proof (load_model_first e model
                  {| St.proc := St.boot; St.page := [St.Markdown style_sheet] |}
                  Hf eq_refl) as Hload.
    destruct (rerun_unfold e ui clicked St.boot model _ Hload) as [header ->].
    rewrite (on_button_renders_only e model ui clicked). simpl.
    apply (reruns_keep_cache e rest
             {| St.cache := Some model; St.loads := 1 |} model).
    reflexivity.
Qed.

Lemma load_model_deserializes_once_witness :
  call_times 3 (load_model (disk_with (stub_model 1 [0.18; 0.82]%Q None)))
             {| St.proc := St.boot; St.page := [] |} =
    (repeat (Py.Ok (stub_model 1 [0.18; 0.82]%Q None)) 3,
     {| St.proc := {| St.cache := Some (stub_model 1 [0.18; 0.82]%Q None); St.loads := 1 |};
        St.page := [] |}).
Proof.
  apply (proj1 (load_model_deserializes_once
                  (disk_with (stub_model 1 [0.18; 0.82]%Q None))
                  (stub_model 1 [0.18; 0.82]%Q None) 3 eq_refl
                  (le_S 2 2 (le_n 2)))).
Defined.

(* ------------------------------------------------------------------ *)
(** * Further properties of the script *)

(** ** Runs of the whole script *)

Lemma load_model_page (e : St.env) (w : St.world) :
  St.page (snd (load_model e w)) = St.page w.
Proof.
  unfold load_model, St.cache_resource, joblib_load.
  destruct (St.cache (St.proc w)); [reflexivity|].
  destruct (St.files e "Tsunami_model.pkl"); reflexivity.
Qed.

(** A run whose load returns continues with the button on a page of
    seven elements. *)
Lemma rerun_after_load
  (e : St.env) (ui : Sidebar.t) (clicked : bool) (p : St.process)
  (model : Sklearn.classifier) (w1 : St.world) :
  load_model e {| St.proc := p; St.page := [St.Markdown style_sheet] |} = (Py.Ok model, w1) ->
  exists above : list St.element,
    List.length above = 5%nat /\
    rerun e ui clicked p =
      on_button e model ui clicked
        {| St.proc := St.proc w1;
           St.page := (above ++ [ St.Write "### 📋 Input Summary";
                                  St.Dataframe (input_data ui) ])%list |}.
Proof.
  intros H.
  pose proof (load_model_page e {| St.proc := p; St.page := [St.Markdown style_sheet] |}) as Hpg.
  rewrite H in Hpg. simpl in Hpg.
  unfold rerun, script, St.bind, St.emit. simpl.
  rewrite H. simpl. rewrite Hpg. simpl.
  exists [ St.Markdown style_sheet;
           St.Title "🌋 Earthquake & Tsunami Risk Prediction Dashboard";
           St.Markdown
             "Welcome to the **AI-powered Tsunami Risk Prediction System**, where machine learning meets real-time seismic insights 🌍. Use the panel on the left to input earthquake details and assess tsunami likelihood.";
           St.Markdown "---";
           St.SidebarHeader "⚙️ Input Earthquake Parameters" ].
  split; reflexivity.
Qed.

Lemma on_button_stamp
  (e1 e2 : St.env) (model : Sklearn.classifier) (ui : Sidebar.t) (clicked : bool) :
  St.now_stamp e1 = St.now_stamp e2 ->
  on_button e1 model ui clicked = on_button e2 model ui clicked.
Proof.
  intros H. unfold on_button. rewrite H. reflexivity.
Qed.

(** X1.  A run in which the button is not pressed never calls the model:
    whatever model was loaded, even one whose calls raise, the run ends
    without an exception, and its page ends with the input summary and
    the prompt and holds no verdict, metric or chart. *)
Theorem idle_run_never_calls_model
  (e : St.env) (ui : Sidebar.t) (p : St.process)
  (model : Sklearn.classifier) (w1 : St.world) :
  load_model e {| St.proc := p; St.page := [St.Markdown style_sheet] |} = (Py.Ok model, w1) ->
  exists above : list St.element,
    List.length above = 5%nat /\
    rerun e ui false p =
      (Py.Ok tt,
       {| St.proc := St.proc w1;
          St.page :=
            (above ++
             [ St.Write "### 📋 Input Summary";
               St.Dataframe (input_data ui);
               St.Info "👈 Adjust earthquake parameters and click **Run Tsunami Risk Prediction** to begin." ])%list |}) /\
    forall model' : Sklearn.classifier,
      on_button e model' ui false = on_button e model ui false.
Proof.
  intros H.
  destruct (rerun_after_load e ui false p model w1 H) as (above & Hlen & Hrun).
  exists above. split; [exact Hlen|]. split.
  - rewrite Hrun. unfold on_button, St.emit, St.bind. simpl.
    rewrite <- app_assoc. reflexivity.
  - intros model'. reflexivity.
Qed.

Lemma idle_run_never_calls_model_witness :
  fst (rerun (disk_with (broken_model (Py.Raise (Py.RuntimeError "predict")) Py.KeyboardInterrupt))
             (Sidebar.defaults 11) false St.boot) = Py.Ok tt.
Proof.
  destruct (idle_run_never_calls_model
              (disk_with (broken_model (Py.Raise (Py.RuntimeError "predict")) Py.KeyboardInterrupt))
              (Sidebar.defaults 11) St.boot
              (broken_model (Py.Raise (Py.RuntimeError "predict")) Py.KeyboardInterrupt)
              _ eq_refl) as (above & _ & Hrun & _).
  rewrite Hrun. reflexivity.
Defined.

(** X2.  A model file that cannot be deserialized is not cached: every
    run of a process whose slot is empty calls [joblib.load] again, ends
    with its exception and leaves only the style sheet on the page; after
    any series of runs of a fresh process the slot is still empty and the
    number of calls is the number of runs. *)
Theorem load_failure_is_retried (e : St.env) (ex : Py.exn) :
  St.files e "Tsunami_model.pkl" = Py.Raise ex ->
  (forall (ui : Sidebar.t) (clicked : bool) (p : St.process),
     St.cache p = None ->
     rerun e ui clicked p =
       (Py.Raise ex,
        {| St.proc := {| St.cache := None; St.loads := S (St.loads p) |};
           St.page := [St.Markdown style_sheet] |})) /\
  (forall inputs : list (Sidebar.t * bool),
     reruns e inputs St.boot =
       {| St.cache := None; St.loads := List.length inputs |}).
Proof.
  intros Hf.
  assert (forall (ui : Sidebar.t) (clicked : bool) (p : St.process),
     St.cache p = None ->
     rerun e ui clicked p =
       (Py.Raise ex,
        {| St.proc := {| St.cache := None; St.loads := S (St.loads p) |};
           St.page := [St.Markdown style_sheet] |})) as Hone.
  { intros ui clicked p Hc.
    apply rerun_load_fails.
    apply (load_model_failure_not_cached e ex
             {| St.proc := p; St.page := [St.Markdown style_sheet] |} Hf Hc). }
  split; [exact Hone|].
  assert (forall (inputs : list (Sidebar.t * bool)) (k : nat),
            reruns e inputs {| St.cache := None; St.loads := k |} =
              {| St.cache := None; St.loads := (k + List.length inputs)%nat |}) as Hgen.
  { induction inputs as [|[ui clicked] rest IH]; intros k; simpl.
    - now rewrite Nat.add_0_r.
    - rewrite (Hone ui clicked {| St.cache := None; St.loads := k |} eq_refl).
      simpl. rewrite IH. f_equal. lia. }
  intros inputs. exact (Hgen inputs 0%nat).
Qed.

Lemma load_failure_is_retried_witness :
  reruns {| St.files := fun path => Py.Raise (Py.FileNotFoundError path);
            St.now_month := 11; St.now_stamp := "2026-11-03 10:00:00" |}
         [(Sidebar.defaults 11, false); (Sidebar.defaults 11, true); (Sidebar.defaults 11, true)]
         St.boot
  = {| St.cache := None; St.loads := 3 |}.
Proof.
  apply (proj2 (load_failure_is_retried
                  {| St.files := fun path => Py.Raise (Py.FileNotFoundError path);
                     St.now_month := 11; St.now_stamp := "2026-11-03 10:00:00" |}
                  (Py.FileNotFoundError "Tsunami_model.pkl") eq_refl)).
Defined.

(** X3.  Once the slot holds a model, a run no longer reads the model
    file: two environments that differ in their files (the file replaced,
    corrupted or deleted) and agree on the clock give the same run. *)
Theorem cached_model_outlives_file
  (e1 e2 : St.env) (ui : Sidebar.t) (clicked : bool) (p : St.process)
  (model : Sklearn.classifier) :
  St.cache p = Some model ->
  St.now_stamp e1 = St.now_stamp e2 ->
  rerun e1 ui clicked p = rerun e2 ui clicked p /\
  St.proc (snd (rerun e1 ui clicked p)) = p.
Proof.
  intros Hc Hs.
  split.
  - unfold rerun, script, St.bind, St.emit. simpl.
    rewrite (load_model_cached e1 model
               {| St.proc := p; St.page := [St.Markdown style_sheet] |} Hc).
    rewrite (load_model_cached e2 model
               {| St.proc := p; St.page := [St.Markdown style_sheet] |} Hc).
    simpl. rewrite (on_button_stamp e1 e2 model ui clicked Hs). reflexivity.
  - exact (rerun_keeps_cache e1 ui clicked p model Hc).
Qed.

Lemma cached_model_outlives_file_witness :
  let m := stub_model 1 [0.18; 0.82]%Q None in
  let gone := {| St.files := fun path => Py.Raise (Py.FileNotFoundError path);
                 St.now_month := 11; St.now_stamp := "2026-11-03 10:00:00" |} in
  let p := {| St.cache := Some m; St.loads := 1 |} in
  rerun (disk_with m) (Sidebar.defaults 11) true p = rerun gone (Sidebar.defaults 11) true p.
Proof.
  cbv zeta.
  apply (proj1 (cached_model_outlives_file
                  (disk_with (stub_model 1 [0.18; 0.82]%Q None))
                  {| St.files := fun path => Py.Raise (Py.FileNotFoundError path);
                     St.now_month := 11; St.now_stamp := "2026-11-03 10:00:00" |}
                  (Sidebar.defaults 11) true
                  {| St.cache := Some (stub_model 1 [0.18; 0.82]%Q None); St.loads := 1 |}
                  (stub_model 1 [0.18; 0.82]%Q None) eq_refl eq_refl)).
Defined.

(** X4.  Caching does not show on the page: the first run of a fresh
    process, which deserializes the model, and a run of any process that
    already holds the same model end alike and render the same page. *)
Theorem first_run_renders_like_later_runs
  (e : St.env) (ui : Sidebar.t) (clicked : bool) (p : St.process)
  (model : Sklearn.classifier) :
  St.files e "Tsunami_model.pkl" = Py.Ok model ->
  St.cache p = Some model ->
  fst (rerun e ui clicked St.boot) = fst (rerun e ui clicked p) /\
  St.page (snd (rerun e ui clicked St.boot)) = St.page (snd (rerun e ui clicked p)).
Proof.
  intros Hf Hc.
  pose proof (load_model_first e model
                {| St.proc := St.boot; St.page := [St.Markdown style_sheet] |}
                Hf eq_refl) as H0.
  pose proof (load_model_cached e model
                {| St.proc := p; St.page := [St.Markdown style_sheet] |} Hc) as H1.
  unfold rerun, script, St.bind, St.emit. simpl.
  rewrite H0, H1. simpl.
  rewrite (on_button_renders_only e model ui clicked
             {| St.proc := {| St.cache := Some model; St.loads := 1 |};
                St.page := _ |}).
  rewrite (on_button_renders_only e model ui clicked {| St.proc := p; St.page := _ |}).
  split; reflexivity.
Qed.

Lemma first_run_renders_like_later_runs_witness :
  let m := stub_model 1 [0.18; 0.82]%Q None in
  St.page (snd (rerun (disk_with m) (Sidebar.defaults 11) true St.boot)) =
  St.page (snd (rerun (disk_with m) (Sidebar.defaults 11) true
                      {| St.cache := Some m; St.loads := 7 |})).
Proof.
  cbv zeta.
  apply (proj2 (first_run_renders_like_later_runs
                  (disk_with (stub_model 1 [0.18; 0.82]%Q None))
                  (Sidebar.defaults 11) true
                  {| St.cache := Some (stub_model 1 [0.18; 0.82]%Q None); St.loads := 7 |}
                  (stub_model 1 [0.18; 0.82]%Q None) eq_refl eq_refl)).
Defined.

(** ** The feature-importance chart *)

Lemma insert_by_importance_perm (r : string * Q) (rs : list (string * Q)) :
  Permutation (insert_by_importance r rs) (r :: rs).
Proof.
  induction rs as [|r' rs IH]; simpl.
  - apply Permutation_refl.
  - destruct (Qle_bool (snd r) (snd r')).
    + apply Permutation_refl.
    + eapply Permutation_trans; [apply perm_skip; exact IH | apply perm_swap].
Qed.

Lemma sort_values_perm (rs : list (string * Q)) : Permutation (sort_values rs) rs.
Proof.
  induction rs as [|r rs IH]; simpl.
  - apply Permutation_refl.
  - eapply Permutation_trans; [apply insert_by_importance_perm|].
    apply perm_skip. exact IH.
Qed.

Lemma insert_by_importance_sorted (r : string * Q) (rs : list (string * Q)) :
  Sorted (fun x y => (snd x <= snd y)%Q) rs ->
  Sorted (fun x y => (snd x <= snd y)%Q) (insert_by_importance r rs).
Proof.
  induction rs as [|r' rs IH]; intros Hs; simpl.
  - constructor; constructor.
  - destruct (Qle_bool (snd r) (snd r')) eqn:E.
    + constructor; [exact Hs|]. constructor. apply Qle_bool_iff. exact E.
    + assert (snd r' <= snd r)%Q as Hle.
      { apply Qlt_le_weak. apply Qnot_le_lt. intros H.
        apply Qle_bool_iff in H. congruence. }
      inversion Hs as [|? ? Hs' Hhd]; subst.
      constructor; [apply IH; exact Hs'|].
      destruct rs as [|r'' rs]; simpl.
      * constructor. exact Hle.
      * destruct (Qle_bool (snd r) (snd r'')); constructor; [exact Hle|].
        inversion Hhd; assumption.
Qed.

Lemma sort_values_sorted (rs : list (string * Q)) :
  StronglySorted (fun x y => (snd x <= snd y)%Q) (sort_values rs).
Proof.
  apply Sorted_StronglySorted.
  - intros x y z Hxy Hyz. eapply Qle_trans; eassumption.
  - induction rs as [|r rs IH]; simpl.
    + constructor.
    + apply insert_by_importance_sorted. exact IH.
Qed.

Lemma feature_frame_Ok (features : list string) (importances : list Q) :
  List.length importances = List.length features ->
  feature_frame features importances = Py.Ok (combine features importances).
Proof.
  intros H. unfold feature_frame. rewrite H, Nat.eqb_refl. reflexivity.
Qed.

Lemma feature_frame_Raise (features : list string) (importances : list Q) :
  List.length importances <> List.length features ->
  exists msg : string,
    feature_frame features importances = Py.Raise (Py.ValueError msg).
Proof.
  intros H. unfold feature_frame.
  destruct (Nat.eqb (List.length features) (List.length importances)) eqn:E.
  - apply Nat.eqb_eq in E. congruence.
  - eexists; reflexivity.
Qed.

Lemma rendered_importance_chart
  (model : Sklearn.classifier) (df : Pandas.DataFrame) (ws : list Q) :
  Sklearn.feature_importances model = Some ws ->
  List.length ws = List.length (Pandas.columns df) ->
  rendered (feature_importance_panel model df) =
    [ St.PlotlyChart (Plotly.Bar
        {| Plotly.bars := sort_values (combine (Pandas.columns df) ws);
           Plotly.orientation := "h";
           Plotly.color_continuous_scale := "Viridis";
           Plotly.bar_title := "Feature Influence on Tsunami Prediction";
           Plotly.font_size := 13 |}) ].
Proof.
  intros Hws Hlen.
  unfold rendered, feature_importance_panel, St.try_except, St.bind, St.lift,
    Sklearn.feature_importances_.
  rewrite Hws, (feature_frame_Ok _ _ Hlen). reflexivity.
Qed.

(** X5.  When the model has one importance per column, the panel renders
    one bar chart: its bars are the columns paired with their importances
    by position, rearranged so that the importances ascend, none lost and
    none added. *)
Theorem importance_chart_sorted
  (model : Sklearn.classifier) (df : Pandas.DataFrame) (ws : list Q) :
  Sklearn.feature_importances model = Some ws ->
  List.length ws = List.length (Pandas.columns df) ->
  exists b : Plotly.bar,
    rendered (feature_importance_panel model df) = [St.PlotlyChart (Plotly.Bar b)] /\
    Permutation (Plotly.bars b) (combine (Pandas.columns df) ws) /\
    StronglySorted (fun x y => (snd x <= snd y)%Q) (Plotly.bars b) /\
    List.length (Plotly.bars b) = List.length (Pandas.columns df).
Proof.
  intros Hws Hlen.
  rewrite (rendered_importance_chart model df ws Hws Hlen).
  eexists. split; [reflexivity|]. simpl.
  split; [apply sort_values_perm|].
  split; [apply sort_values_sorted|].
  rewrite (Permutation_length (sort_values_perm _)).
  rewrite length_combine, Hlen. apply Nat.min_id.
Qed.

Lemma importance_chart_sorted_witness :
  exists b : Plotly.bar,
    rendered (feature_importance_panel
                (stub_model 1 [0.18; 0.82]%Q
                   (Some [0.3; 0.05; 0.05; 0.1; 0.02; 0.03; 0.05; 0.2; 0.1; 0.05; 0.03; 0.02]%Q))
                (input_data (Sidebar.defaults 11)))
      = [St.PlotlyChart (Plotly.Bar b)] /\
    List.length (Plotly.bars b) = 12%nat.
Proof.
  destruct (importance_chart_sorted
              (stub_model 1 [0.18; 0.82]%Q
                 (Some [0.3; 0.05; 0.05; 0.1; 0.02; 0.03; 0.05; 0.2; 0.1; 0.05; 0.03; 0.02]%Q))
              (input_data (Sidebar.defaults 11))
              [0.3; 0.05; 0.05; 0.1; 0.02; 0.03; 0.05; 0.2; 0.1; 0.05; 0.03; 0.02]%Q
              eq_refl eq_refl) as (b & Hb & _ & _ & Hlen).
  exists b. split; [exact Hb | exact Hlen].
Defined.

(** X6.  The panel never raises, for any model and frame, and it shows
    the notice in place of the chart exactly when the model has no
    importances or has a number of them other than the number of
    columns: the guard catches the length error of the frame as it
    catches the missing attribute. *)
Theorem importance_notice_iff
  (model : Sklearn.classifier) (df : Pandas.DataFrame) (w : St.world) :
  fst (feature_importance_panel model df w) = Py.Ok tt /\
  (rendered (feature_importance_panel model df) = [St.Info no_importance_message]
   <->
   Sklearn.feature_importances model = None \/
   exists ws : list Q,
     Sklearn.feature_importances model = Some ws /\
     List.length ws <> List.length (Pandas.columns df)).
Proof.
  split.
  - rewrite (feature_importance_panel_renders_only model df w).
    exact (proj1 (importance_panel_total model df)).
  - split.
    + intros Hr.
      destruct (Sklearn.feature_importances model) as [ws|] eqn:Hws; [|now left].
      right. exists ws. split; [reflexivity|]. intros Hlen.
      rewrite (rendered_importance_chart model df ws Hws Hlen) in Hr.
      discriminate Hr.
    + intros [Hnone | (ws & Hws & Hlen)].
      * exact (rendered_importance_missing model df Hnone).
      * destruct (feature_frame_Raise (Pandas.columns df) ws Hlen) as [msg Hmsg].
        unfold rendered, feature_importance_panel, St.try_except, St.bind, St.lift,
          Sklearn.feature_importances_.
        rewrite Hws, Hmsg. reflexivity.
Qed.

Lemma importance_notice_iff_witness :
  rendered (feature_importance_panel
              (stub_model 1 [0.18; 0.82]%Q (Some [0.5; 0.5]%Q))
              (input_data (Sidebar.defaults 11)))
  = [St.Info no_importance_message].
Proof.
  apply (proj2 (importance_notice_iff
                  (stub_model 1 [0.18; 0.82]%Q (Some [0.5; 0.5]%Q))
                  (input_data (Sidebar.defaults 11))
                  {| St.proc := St.boot; St.page := [] |})).
  right. exists [0.5; 0.5]%Q. split; [reflexivity|].
  intros H; discriminate H.
Defined.

(** ** Short answers of the model *)

Lemma getitem_out_of_range {A : Type} (xs : list A) (i : nat) :
  (List.length xs <= i)%nat ->
  Py.getitem xs i = Py.Raise (Py.IndexError "index out of range").
Proof.
  intros H. unfold Py.getitem.
  apply nth_error_None in H. now rewrite H.
Qed.

(** X7.  When the classification returns no label, or the probability
    estimation returns no row or a first row with fewer than two entries
    (a model fitted on one class), the subscripts of lines 84-85 raise
    IndexError: the run ends with it and renders nothing under the
    button.  An empty label array raises before the probability
    estimation is asked. *)
Theorem short_model_output_is_index_error
  (e : St.env) (model : Sklearn.classifier) (ui : Sidebar.t) (w : St.world) :
  Sklearn.predict model (input_data ui) = Py.Ok [] \/
  (exists (l : Z) (ls : list Z) (probas : list (list Q)),
     Sklearn.predict model (input_data ui) = Py.Ok (l :: ls) /\
     Sklearn.predict_proba model (input_data ui) = Py.Ok probas /\
     (probas = [] \/
      exists (row : list Q) (rest : list (list Q)),
        probas = row :: rest /\ (List.length row < 2)%nat)) ->
  exists msg : string,
    on_button e model ui true w = (Py.Raise (Py.IndexError msg), w).
Proof.
  intros H.
  exists "index out of range".
  apply on_button_raises.
  unfold predictor.
  destruct H as [Hp | (l & ls & probas & Hp & Hpp & Hshort)].
  - rewrite Hp. reflexivity.
  - rewrite Hp. simpl. rewrite Hpp.
    destruct Hshort as [-> | (row & rest & -> & Hrow)].
    + reflexivity.
    + simpl. rewrite (getitem_out_of_range row 1); [reflexivity | lia].
Qed.

Lemma short_model_output_is_index_error_witness :
  exists msg : string,
    on_button (disk_with (stub_model 0 [1.0]%Q None)) (stub_model 0 [1.0]%Q None)
              (Sidebar.defaults 11) true {| St.proc := St.boot; St.page := [] |}
    = (Py.Raise (Py.IndexError msg), {| St.proc := St.boot; St.page := [] |}).
Proof.
  apply (short_model_output_is_index_error
           (disk_with (stub_model 0 [1.0]%Q None)) (stub_model 0 [1.0]%Q None)
           (Sidebar.defaults 11) {| St.proc := St.boot; St.page := [] |}).
  right. exists 0, [], [[1.0]%Q].
  split; [reflexivity|]. split; [reflexivity|].
  right. exists [1.0]%Q, []. split; [reflexivity|]. simpl. lia.
Defined.

(** ** The point on the map *)

(** X8.  Every risk level the script can derive has a colour in the
    colour map, so the marker always has one: red exactly when
    magnitude >= 7, orange exactly when 5 <= magnitude < 7, green exactly
    when magnitude < 5. *)
Theorem map_colour_follows_level (ui : Sidebar.t) :
  Plotly.marker_color (fig_map ui) <> None /\
  (Plotly.marker_color (fig_map ui) = Some "red" <-> 7 <= Sidebar.magnitude ui)%Q /\
  (Plotly.marker_color (fig_map ui) = Some "orange" <->
     5 <= Sidebar.magnitude ui /\ Sidebar.magnitude ui < 7)%Q /\
  (Plotly.marker_color (fig_map ui) = Some "green" <-> Sidebar.magnitude ui < 5)%Q.
Proof.
  unfold fig_map. cbn [Plotly.marker_color].
  destruct (risk_level_cases (Sidebar.magnitude ui)) as [[H7 E] | [[H5 [H7 E]] | [H5 E]]];
    rewrite E; cbn [assoc color_discrete_map String.eqb Ascii.eqb Bool.eqb andb];
    (split; [discriminate|]);
    repeat split; intros;
    try reflexivity; try assumption; try congruence;
    destruct (Sidebar.magnitude ui) as [n d]; unfold Qle, Qlt in *; simpl in *; lia.
Qed.

(** X9.  When every control holds a value of its range, the point of the
    map is a coordinate of the globe, its marker size is the magnitude
    and lies between 4 and 10, so it is positive, and the map is centred
    on the point. *)
Theorem map_point_is_valid (ui : Sidebar.t) :
  Sidebar.in_range ui = true ->
  (-90 <= Plotly.lat (fig_map ui) /\ Plotly.lat (fig_map ui) <= 90)%Q /\
  (-180 <= Plotly.lon (fig_map ui) /\ Plotly.lon (fig_map ui) <= 180)%Q /\
  (4 <= Plotly.size (fig_map ui) /\ Plotly.size (fig_map ui) <= 10)%Q /\
  (0 < Plotly.size (fig_map ui))%Q /\
  Plotly.mapbox_center (fig_map ui) = (Plotly.lat (fig_map ui), Plotly.lon (fig_map ui)).
Proof.
  intros Hui.
  unfold Sidebar.in_range in Hui.
  rewrite forallb_forall in Hui.
  pose proof (proj1 (within_spec _ _) (Hui Sidebar.Latitude (all_fields_complete _))) as Hlat.
  pose proof (proj1 (within_spec _ _) (Hui Sidebar.Longitude (all_fields_complete _))) as Hlon.
  pose proof (proj1 (within_spec _ _) (Hui Sidebar.Magnitude (all_fields_complete _))) as Hmag.
  cbn [Sidebar.control_range Sidebar.control_value Py.to_Q fst snd] in Hlat, Hlon, Hmag.
  unfold fig_map.
  cbn [Plotly.lat Plotly.lon Plotly.size Plotly.mapbox_center].
  destruct (Sidebar.latitude ui) as [a b], (Sidebar.longitude ui) as [c d],
    (Sidebar.magnitude ui) as [m k].
  unfold Qle, Qlt in *. cbn [Qnum Qden] in *.
  repeat split; lia.
Qed.

Lemma map_point_is_valid_witness :
  (0 < Plotly.size (fig_map (Sidebar.defaults 11)))%Q.
Proof.
  exact (proj1 (proj2 (proj2 (proj2 (map_point_is_valid (Sidebar.defaults 11) eq_refl))))).
Defined.

(** ** The cells of the input record *)


(** ** Rounding of the displayed percentage *)

(** X11.  The rounding behind the two decimals of the metric gives an
    integer within one half of its argument, leaves integers unchanged,
    and sends an exact half to the even neighbour. *)
Theorem round_half_even_is_nearest :
  (forall q : Q, (Qabs (inject_Z (round_half_even q) - q) <= 1 # 2)%Q) /\
  (forall z : Z, round_half_even (inject_Z z) = z) /\
  (forall (q : Q) (k : Z),
     (q == inject_Z k + (1 # 2))%Q ->
     Z.even (round_half_even q) = true /\
     (round_half_even q = k \/ round_half_even q = k + 1)).
Proof.
  split; [|split].
  - intros [n d].
    unfold round_half_even. cbn [Qnum Qden].
    pose proof (Z.div_mod n (Z.pos d) ltac:(lia)) as Hdm.
    pose proof (Z.mod_pos_bound n (Z.pos d) ltac:(lia)) as Hr.
    set (fl := n / Z.pos d) in *. set (r := n mod Z.pos d) in *.
    assert (forall k : Z, 2 * Z.abs (k * Z.pos d - n) <= Z.pos d ->
                          (Qabs (inject_Z k - (n # d)) <= 1 # 2)%Q) as Hq.
    { intros k Hk. unfold Qle, Qabs, Qminus, Qplus, Qopp, inject_Z.
      cbn [Qnum Qden]. rewrite Pos.mul_1_l. lia. }
    destruct (2 * r ?= Z.pos d) eqn:C.
    + apply Z.compare_eq in C.
      destruct (Z.even fl); apply Hq; lia.
    + rewrite Z.compare_lt_iff in C. apply Hq. lia.
    + rewrite Z.compare_gt_iff in C. apply Hq. lia.
  - intros z. unfold round_half_even, inject_Z. cbn [Qnum Qden].
    rewrite Z.mod_1_r, Z.div_1_r. reflexivity.
  - intros [n d] k Hq.
    unfold Qeq, Qplus, inject_Z in Hq. cbn [Qnum Qden] in Hq.
    unfold round_half_even. cbn [Qnum Qden].
    pose proof (Z.div_mod n (Z.pos d) ltac:(lia)) as Hdm.
    pose proof (Z.mod_pos_bound n (Z.pos d) ltac:(lia)) as Hr.
    set (fl := n / Z.pos d) in *. set (r := n mod Z.pos d) in *.
    assert (2 * n = (2 * k + 1) * Z.pos d) as H2 by lia.
    assert (fl = k) as Hfl.
    { assert (0 <= 2 * k + 1 - 2 * fl < 2) as Hb.
      { split.
        - apply (Z.mul_le_mono_pos_r _ _ (Z.pos d)); lia.
        - apply (Z.mul_lt_mono_pos_r (Z.pos d)); lia. }
      lia. }
    assert (2 * r = Z.pos d) as Hhalf by (subst fl; lia).
    rewrite (proj2 (Z.compare_eq_iff _ _) Hhalf).
    rewrite Hfl.
    destruct (Z.even k) eqn:Ek.
    + split; [exact Ek | now left].
    + split; [|now right].
      rewrite Z.even_add, Ek. reflexivity.
Qed.

Lemma round_half_even_is_nearest_witness :
  Z.even (round_half_even (12.5)) = true /\
  (round_half_even (12.5) = 12 \/ round_half_even (12.5) = 12 + 1).
Proof.
  apply (proj2 (proj2 round_half_even_is_nearest) 12.5%Q 12).
  reflexivity.
Defined.
